(** * Finality tracking and the milestone reorg guard

    A shallow embedding of [core/rawdb/milestone.go], which holds the
    persistence layer (Go package [rawdb]) and the milestone guard of
    package [whitelist] (type [milestone] with its sprint-locking
    protocol), followed by the properties of these functions.

    Conventions of the embedding.
    - [uint64] values are never combined arithmetically in this code (they
      are only compared and stored), so they are modelled as [N].
    - [common.Hash] is a 32-byte array that the code only compares and
      stores; it is modelled as the 256-bit number its bytes spell
      (big-endian), of type [N].
    - A function returning [(value, error)] returns a [result]; a function
      returning just [error] returns [option error] ([None] is [nil]).
    - A run-time panic is the result [None] of an [option].
    - [log.Error], [log.Warn] and the metrics meter write to observability
      sinks only and are left out.
    - The guard's [sync.RWMutex] serialises the operations; every operation
      below is the body that runs while the mutex is held, as a function
      from the guard's state to its next state.  The mutex itself is not
      part of the state.
    - The guard's map [LockedMilestoneIDs] is always allocated (the
      constructor and [purgeMilestoneIDsList] both [make] it); a
      [map[string]struct{}] is a finite set of strings. *)

From Stdlib Require Import ZArith NArith Lia Ascii String.
From Stdlib Require Import DecimalString DecimalN DecimalPos.
From stdpp Require Import gmap strings list.

(** ** Basic types *)

Definition uint64 := N.
Bind Scope N_scope with uint64.

(** [[]byte]: a string is a sequence of 8-bit characters. *)
Definition bytes := string.

Module common.

(** [common.Hash], a [[32]byte] value. *)
Definition Hash := N.

(** The zero value [common.Hash{}]. *)
Definition zero : Hash := 0%N.

End common.
Bind Scope N_scope with common.Hash.

(** ** Errors

    The sentinel errors of package [rawdb] are declared outside
    [milestone.go]; only their identity matters here.  [ErrNotFound] and
    [ErrStoreUnavailable] are the errors of the key-value store. *)

Inductive sentinel :=
| ErrEmptyLastFinality
| ErrIncorrectFinality
| ErrIncorrectFinalityToStore
| ErrDBNotResponding
| ErrIncorrectLockField
| ErrIncorrectLockFieldToStore
| ErrNotFound
| ErrStoreUnavailable.

(** An [error] value: a sentinel ([errors.New]), an error of the
    serialization library, or the result of [fmt.Errorf] with a format
    that starts with the verb [%w]: the wrapped error comes first, the
    remaining arguments follow. *)
Inductive error :=
| Sentinel (s : sentinel)
| CodecError (msg : string)
| Errorf (format : string) (wrapped : error) (args : list fmtarg)
with fmtarg :=
| ArgErr (e : error)
| ArgStr (s : string)
| ArgBytes (b : bytes).

Inductive result (A : Type) :=
| Ok (a : A)
| Err (e : error).
Arguments Ok {A} a.
Arguments Err {A} e.

Global Instance sentinel_eq_dec : EqDecision sentinel.
Proof. solve_decision. Defined.

(** [errors.Is(e, target)] for a sentinel [target]: unwrap [e] along its
    [%w] chain until the sentinel is met. *)
Fixpoint errors_Is (e : error) (target : sentinel) : bool :=
  match e with
  | Sentinel s => bool_decide (s = target)
  | CodecError _ => false
  | Errorf _ w _ => errors_Is w target
  end.

(** The error classes of the read path (section 7 of the specification):
    [NotFound], no record was written yet (the store has no value under the
    key, or an empty one), and [Corrupt], the stored bytes do not decode. *)
Definition IsNotFound (e : error) : bool :=
  errors_Is e ErrNotFound || errors_Is e ErrEmptyLastFinality.

Definition IsCorrupt (e : error) : bool :=
  errors_Is e ErrIncorrectFinality.

(** ** The key-value store *)

Module ethdb.

(** Modelled from the spec: the key-value store behind the interfaces
    [ethdb.KeyValueReader] and [ethdb.KeyValueWriter], whose
    implementations are not part of [milestone.go].  Section 6 of the
    specification gives [get(key) -> bytes|absent] and
    [put(key, bytes) -> Result<(), Error>]: the store is a finite map
    from keys to values, and a write fails when the store is
    unavailable. *)
Record KeyValueStore := mk {
  entries : gmap string bytes;
  unavailable : bool
}.

Definition Get (db : KeyValueStore) (key : string) : result bytes :=
  match entries db !! key with
  | Some v => Ok v
  | None => Err (Sentinel ErrNotFound)
  end.

Definition Put (db : KeyValueStore) (key : string) (value : bytes)
  : KeyValueStore * option error :=
  if unavailable db then (db, Some (Sentinel ErrStoreUnavailable))
  else (mk (<[key := value]> (entries db)) false, None).

Definition empty : KeyValueStore := mk ∅ false.

End ethdb.

(** ** The serialization library

    [json.Marshal] and [json.Unmarshal] (json-iterator) are an external
    library; the persistence layer is written against this interface.
    [json_Unmarshal data] decodes into a fresh zero value, which is how
    both readers below call it.

    The library prints the members of a map in the order Go's map
    iteration yields them, which varies from call to call; an instance of
    this class fixes one encoding per value.  The properties below
    therefore compare what is read back from the store, not the bytes of
    two encodings of a set of identifiers (the one comparison of stores,
    for [UnlockSprint], concerns the empty set, which has one
    encoding). *)
Class JSON (A : Type) := {
  json_Marshal : A -> result bytes;
  json_Unmarshal : bytes -> result A
}.

(** ** Package [rawdb]: the persistence layer *)

Module rawdb.

Definition lastMilestone : string := "LastMilestone".
Definition lockFieldKey : string := "LockField".

Record Finality := mkFinality {
  Block : uint64;
  Hash : common.Hash
}.

(** [Finality.set]. *)
Definition set (f : Finality) (block : uint64) (hash : common.Hash) : Finality :=
  mkFinality block hash.

(** [Milestone.block] (and the checkpoint's). *)
Definition block (f : Finality) : uint64 * common.Hash := (Block f, Hash f).

(** The types that instantiate [T BlockFinality[T]]: [*Milestone], whose
    only field is the embedded [Finality], and its sibling [*Checkpoint]
    (declared in another file of the package). *)
Inductive BlockFinality := Milestone | Checkpoint.

(** [clone]: a fresh zero value of the variant. *)
Definition clone (T : BlockFinality) : Finality := mkFinality 0 common.zero.

Section Keys.
(** The checkpoint's key is declared next to [Checkpoint]. *)
Variable lastCheckpoint : string.

Definition getKey (T : BlockFinality) : Finality * string :=
  let lastT := clone T in
  match T with
  | Milestone => (lastT, lastMilestone)
  | Checkpoint => (lastT, lastCheckpoint)
  end.

Context `{!JSON Finality}.

Definition ReadFinality (T : BlockFinality) (db : ethdb.KeyValueStore)
  : result (uint64 * common.Hash) :=
  let '(_, key) := getKey T in
  match ethdb.Get db key with
  | Err err => Err (Errorf "%w: empty response for %s" err [ArgStr key])
  | Ok data =>
      if (String.length data =? 0)%nat then
        Err (Errorf "%w for %s" (Sentinel ErrEmptyLastFinality) [ArgStr key])
      else
        match json_Unmarshal data with
        | Err err =>
            Err (Errorf "%w(%v) for %s, data %v(%q)"
                   (Sentinel ErrIncorrectFinality)
                   [ArgErr err; ArgStr key; ArgBytes data; ArgStr data])
        | Ok lastTV => Ok (block lastTV)
        end
  end.

Definition WriteLastFinality (T : BlockFinality) (db : ethdb.KeyValueStore)
  (block : uint64) (hash : common.Hash) : ethdb.KeyValueStore * option error :=
  let '(lastTV, key) := getKey T in
  let lastTV := set lastTV block hash in
  match json_Marshal lastTV with
  | Err err =>
      (db, Some (Errorf "%w: %v for %s struct"
                   (Sentinel ErrIncorrectFinalityToStore) [ArgErr err; ArgStr key]))
  | Ok enc =>
      match ethdb.Put db key enc with
      | (db', Some err) =>
          (db', Some (Errorf "%w: %v for %s struct"
                        (Sentinel ErrDBNotResponding) [ArgErr err; ArgStr key]))
      | (db', None) => (db', None)
      end
  end.
End Keys.

(** The struct [LockField]; its fields [Block] and [Hash] are spelled
    [LockBlock] and [LockHash] here, next to [Finality]'s. *)
Record LockField := mkLockField {
  Val : bool;
  LockBlock : uint64;
  LockHash : common.Hash;
  IdList : gset string
}.

Section Lock.
Context `{!JSON LockField}.

Definition WriteLockField (db : ethdb.KeyValueStore) (val : bool) (block : uint64)
  (hash : common.Hash) (idListMap : gset string)
  : ethdb.KeyValueStore * option error :=
  let lockField := mkLockField val block hash idListMap in
  let key := lockFieldKey in
  match json_Marshal lockField with
  | Err err =>
      (db, Some (Errorf "%w: %v for lock field struct"
                   (Sentinel ErrIncorrectLockFieldToStore) [ArgErr err]))
  | Ok enc =>
      match ethdb.Put db key enc with
      | (db', Some err) =>
          (db', Some (Errorf "%w: %v for lock field struct"
                        (Sentinel ErrDBNotResponding) [ArgErr err]))
      | (db', None) => (db', None)
      end
  end.

Definition ReadLockField (db : ethdb.KeyValueStore)
  : result (bool * uint64 * common.Hash * gset string) :=
  let key := lockFieldKey in
  match ethdb.Get db key with
  | Err err => Err (Errorf "%w: empty response for lock field" err [])
  | Ok data =>
      if (String.length data =? 0)%nat then
        Err (Errorf "%w for %s" (Sentinel ErrIncorrectLockField) [ArgStr key])
      else
        match json_Unmarshal data with
        | Err err =>
            Err (Errorf "%w(%v) for lock field , data %v(%q)"
                   (Sentinel ErrIncorrectLockField)
                   [ArgErr err; ArgBytes data; ArgStr data])
        | Ok lockField =>
            Ok (Val lockField, LockBlock lockField, LockHash lockField, IdList lockField)
        end
  end.
End Lock.

End rawdb.

(** ** Block headers *)

(** [big.Int.Uint64]: the low 64 bits of the magnitude. *)
Definition big_Uint64 (x : Z) : uint64 := Z.to_N (Z.abs x mod 2 ^ 64).

Module types.

(** The fields of [types.Header] (declared in package [core/types]) that
    the guard reads: [Number], a [*big.Int], and the header's digest,
    which [Header.Hash()] computes from the header's content. *)
Record Header := mkHeader {
  Number : Z;
  Hash : common.Hash
}.

(** The expression [h.Number.Uint64()], a block's height. *)
Definition height (h : Header) : uint64 := big_Uint64 (Number h).

End types.

(** [s[i]] for an [int] index: [None] stands for the run-time panic
    "index out of range". *)
Definition index {A : Type} (s : list A) (i : Z) : option A :=
  if (i <? 0)%Z then None else s !! Z.to_nat i.

(** ** Package [whitelist]: the milestone guard *)

Module finality.

(** The generic guard [finality[T]] that [milestone] embeds is declared in
    another file of the package.  These are the fields of it that
    [milestone]'s methods read: the store handle, the finalized record
    and the flag saying that a finalized record exists. *)
Record t := mk {
  db : ethdb.KeyValueStore;
  Hash : common.Hash;
  Number : uint64;
  doExist : bool
}.

Section Process.
Variable lastCheckpoint : string.
Context `{!JSON rawdb.Finality}.

(** Modelled from the spec: [finality.Process], the base confirmation
    step that [milestone.Process] calls, is declared in another file of the
    package.  Section 4.2: it "updates the in-memory record to (block,
    hash), persists it via §4.1"; a finalized record exists from then
    on.  A failed write is logged and swallowed (section 7). *)
Definition Process (T : rawdb.BlockFinality) (f : t) (block : uint64)
  (hash : common.Hash) : t :=
  let '(db', _) := rawdb.WriteLastFinality lastCheckpoint T (db f) block hash in
  mk db' hash block true.
End Process.

End finality.

Module milestone.

Record t := mk {
  finality : finality.t;
  LockedSprintNumber : uint64;
  LockedSprintHash : common.Hash;
  Locked : bool;
  LockedMilestoneIDs : gset string
}.

(** Field assignments. *)
Definition set_finality (f : finality.t) (m : t) : t :=
  mk f (LockedSprintNumber m) (LockedSprintHash m) (Locked m) (LockedMilestoneIDs m).

Definition set_LockedSprintNumber (n : uint64) (m : t) : t :=
  mk (finality m) n (LockedSprintHash m) (Locked m) (LockedMilestoneIDs m).

Definition set_LockedSprintHash (h : common.Hash) (m : t) : t :=
  mk (finality m) (LockedSprintNumber m) h (Locked m) (LockedMilestoneIDs m).

Definition set_Locked (b : bool) (m : t) : t :=
  mk (finality m) (LockedSprintNumber m) (LockedSprintHash m) b (LockedMilestoneIDs m).

Definition set_LockedMilestoneIDs (ids : gset string) (m : t) : t :=
  mk (finality m) (LockedSprintNumber m) (LockedSprintHash m) (Locked m) ids.

Definition set_db (d : ethdb.KeyValueStore) (m : t) : t :=
  set_finality
    (finality.mk d (finality.Hash (finality m)) (finality.Number (finality m))
       (finality.doExist (finality m))) m.

(** [m.db], [m.Number] and [m.doExist] are promoted from the embedded
    [finality]. *)
Definition db (m : t) : ethdb.KeyValueStore := finality.db (finality m).

Definition Number (m : t) : uint64 := finality.Number (finality m).

Definition doExist (m : t) : bool := finality.doExist (finality m).

(** [purgeMilestoneIDsList]: a fresh empty map. *)
Definition purgeMilestoneIDsList (m : t) : t := set_LockedMilestoneIDs ∅ m.

(** [GetMilestoneIDsList]: the keys of the map, in no particular order. *)
Definition GetMilestoneIDsList (m : t) : list string :=
  elements (LockedMilestoneIDs m).

(** [IsReorgAllowed]'s loop: the first header at the locked height
    decides; without one the loop runs out and the chain is allowed. *)
Fixpoint IsReorgAllowed_scan (chain : list types.Header)
  (lockedSprintNumber : uint64) (lockedSprintHash : common.Hash) : bool :=
  match chain with
  | [] => true
  | c :: rest =>
      if (types.height c =? lockedSprintNumber)%N
      then bool_decide (types.Hash c = lockedSprintHash)
      else IsReorgAllowed_scan rest lockedSprintNumber lockedSprintHash
  end.

(** [IsReorgAllowed] does not read its receiver.  [None] is the panic of
    [chain[len(chain)-1]]. *)
Definition IsReorgAllowed (chain : list types.Header)
  (lockedSprintNumber : uint64) (lockedSprintHash : common.Hash) : option bool :=
  match index chain (Z.of_nat (length chain) - 1) with
  | None => None
  | Some lastHeader =>
      if (types.height lastHeader <=? lockedSprintNumber)%N
      then Some false
      else Some (IsReorgAllowed_scan chain lockedSprintNumber lockedSprintHash)
  end.

Section Guard.
(** The administrative flag [flags.Milestone], and the embedded guard's
    [finality.IsValidChain] (the base finalized-boundary check), both
    declared elsewhere in the repository. *)
Variable flags_Milestone : bool.
Variable finality_IsValidChain :
  finality.t -> types.Header -> list types.Header -> bool.
Variable lastCheckpoint : string.
Context `{!JSON rawdb.Finality, !JSON rawdb.LockField}.

(** [IsValidChain]; [None] is a panic raised by [IsReorgAllowed]. *)
Definition IsValidChain (m : t) (currentHeader : types.Header)
  (chain : list types.Header) : option bool :=
  if negb flags_Milestone then Some true
  else if negb (finality_IsValidChain (finality m) currentHeader chain) then Some false
  else if Locked m then
    match IsReorgAllowed chain (LockedSprintNumber m) (LockedSprintHash m) with
    | None => None
    | Some allowed => if negb allowed then Some false else Some true
    end
  else Some true.

(** What the store holds after the lock fields of [m] were written to it
    by [rawdb.WriteLockField(m.db, m.Locked, m.LockedSprintNumber,
    m.LockedSprintHash, m.LockedMilestoneIDs)]. *)
Definition persisted (m : t) : ethdb.KeyValueStore :=
  (rawdb.WriteLockField (db m) (Locked m) (LockedSprintNumber m)
     (LockedSprintHash m) (LockedMilestoneIDs m)).1.

(** That call, with its error logged and dropped. *)
Definition writeLockField (m : t) : t :=
  let '(db', _) :=
    rawdb.WriteLockField (db m) (Locked m) (LockedSprintNumber m)
      (LockedSprintHash m) (LockedMilestoneIDs m) in
  set_db db' m.

Definition UnlockSprint (endBlockNum : uint64) (m : t) : t :=
  if (endBlockNum <? LockedSprintNumber m)%N then m
  else
    let m := set_Locked false m in
    let m := purgeMilestoneIDsList m in
    writeLockField m.

Definition Process (block : uint64) (hash : common.Hash) (m : t) : t :=
  if (Number m =? block)%N then m
  else
    let m :=
      set_finality
        (finality.Process lastCheckpoint rawdb.Milestone (finality m) block hash) m in
    UnlockSprint block m.

Definition LockMutex (endBlockNum : uint64) (m : t) : bool * t :=
  if doExist m && (endBlockNum <=? Number m)%N then (false, m)
  else if Locked m && negb (endBlockNum =? LockedSprintNumber m)%N then
    if (endBlockNum <? LockedSprintNumber m)%N then (false, m)
    else
      let m := UnlockSprint (LockedSprintNumber m) m in
      let m := set_Locked false m in
      (true, set_LockedSprintNumber endBlockNum m)
  else (true, set_LockedSprintNumber endBlockNum m).

(** [UnlockMutex] ends by releasing the mutex that the paired [LockMutex]
    took; it is meant to be called once after each [LockMutex], and
    releasing a mutex that is not held is a fatal error of the run-time,
    which lies outside this embedding. *)
Definition UnlockMutex (doLock : bool) (milestoneId : string)
  (endBlockHash : common.Hash) (m : t) : t :=
  let m := set_Locked (Locked m || doLock) m in
  let m :=
    if doLock then
      let m := set_LockedSprintHash endBlockHash m in
      set_LockedMilestoneIDs ({[milestoneId]} ∪ LockedMilestoneIDs m) m
    else m in
  writeLockField m.

Definition RemoveMilestoneID (milestoneId : string) (m : t) : t :=
  let m := set_LockedMilestoneIDs (LockedMilestoneIDs m ∖ {[milestoneId]}) m in
  let m :=
    if (size (LockedMilestoneIDs m) =? 0)%nat then set_Locked false m else m in
  writeLockField m.

(** The operations that change the guard, as the voting and
    confirmation components issue them. *)
Inductive op :=
| OpLockMutex (endBlockNum : uint64)
| OpUnlockMutex (doLock : bool) (milestoneId : string) (endBlockHash : common.Hash)
| OpUnlockSprint (endBlockNum : uint64)
| OpRemoveMilestoneID (milestoneId : string)
| OpProcess (block : uint64) (hash : common.Hash).

Definition run (o : op) (m : t) : t :=
  match o with
  | OpLockMutex n => (LockMutex n m).2
  | OpUnlockMutex doLock id h => UnlockMutex doLock id h m
  | OpUnlockSprint n => UnlockSprint n m
  | OpRemoveMilestoneID id => RemoveMilestoneID id m
  | OpProcess b h => Process b h m
  end.
End Guard.

(** The sprint-lock invariant of the data model: no contributing
    identifier is kept while nothing is locked. *)
Definition lock_invariant (m : t) : Prop :=
  Locked m = false -> LockedMilestoneIDs m = ∅.

End milestone.

(** ** A reference serialization

    What [json.Marshal] prints for the two persisted records: the fields
    in declaration order, a block number in decimal, a hash as a quoted,
    [0x]-prefixed string of 64 lower-case hexadecimal digits, a flag as
    [true] or [false], and the identifier set as an object with one empty
    member per identifier.  Identifiers are printed as they are (they are
    taken to need no escaping).  The decoders accept exactly this
    canonical form: they are stricter than the library, which also reads
    other spellings of a record (missing fields, another field order,
    white space, [null] for the identifier set), and they do not bound
    the block number at 64 bits.  These instances of [JSON] serve to run
    the properties below on canonical text, where decoder and library
    agree; the theorems themselves are stated for every instance of [JSON]. *)

Module canonical_json.

Definition quote : ascii := ascii_of_nat 34.

(** The text around the values of a [Finality] record. *)
Definition opening : string :=
  String "{" (String quote ("Block" +:+ String quote ":")).

Definition middle : string :=
  String "," (String quote ("Hash" +:+ String quote (String ":" (String quote "0x")))).

Definition closing : string := String quote "}".

(** The character of a hexadecimal digit, as in the table
    [0123456789abcdef], and the digit of a character. *)
Definition hex_digit (d : N) : ascii :=
  ascii_of_N (if (d <? 10)%N then 48 + d else 87 + d)%N.

Definition hex_value (c : ascii) : option N :=
  let code := N_of_ascii c in
  if (48 <=? code)%N && (code <=? 57)%N then Some (code - 48)%N
  else if (97 <=? code)%N && (code <=? 102)%N then Some (code - 87)%N
  else None.

(** The [k] low hexadecimal digits of [h], most significant first,
    followed by [rest]. *)
Fixpoint hex_fixed (k : nat) (h : N) (rest : string) : string :=
  match k with
  | O => rest
  | S k' => hex_fixed k' (h / 16)%N (String (hex_digit (h mod 16)%N) rest)
  end.

(** Read exactly [k] hexadecimal digits; return their value and what
    follows them. *)
Fixpoint hex_take (k : nat) (s : string) (acc : N) : option (N * string) :=
  match k with
  | O => Some (acc, s)
  | S k' =>
      match s with
      | String c s' =>
          match hex_value c with
          | Some v => hex_take k' s' (acc * 16 + v)%N
          | None => None
          end
      | EmptyString => None
      end
  end.

Definition is_digit (c : ascii) : bool :=
  let code := N_of_ascii c in (48 <=? code)%N && (code <=? 57)%N.

(** Split off the longest prefix of decimal digits. *)
Fixpoint dec_take (s : string) : string * string :=
  match s with
  | String c s' =>
      if is_digit c then let '(ds, r) := dec_take s' in (String c ds, r)
      else (EmptyString, s)
  | EmptyString => (EmptyString, EmptyString)
  end.

Fixpoint strip_prefix (p s : string) : option string :=
  match p, s with
  | EmptyString, _ => Some s
  | String a p', String b s' => if Ascii.eqb a b then strip_prefix p' s' else None
  | String _ _, EmptyString => None
  end.

Definition decimal (n : N) : string :=
  DecimalString.NilEmpty.string_of_uint (N.to_uint n).

Definition marshal (f : rawdb.Finality) : result bytes :=
  Ok (opening +:+ decimal (rawdb.Block f) +:+ middle
      +:+ hex_fixed 64 (rawdb.Hash f) closing).

Definition syntax_error : error := CodecError "not a canonical record".

Definition unmarshal (data : bytes) : result rawdb.Finality :=
  match strip_prefix opening data with
  | None => Err syntax_error
  | Some r1 =>
      let '(ds, r2) := dec_take r1 in
      match ds, DecimalString.NilEmpty.uint_of_string ds, strip_prefix middle r2 with
      | String _ _, Some d, Some r3 =>
          match hex_take 64 r3 0%N with
          | Some (h, r4) =>
              if String.eqb r4 closing
              then Ok (rawdb.mkFinality (N.of_uint d) h)
              else Err syntax_error
          | None => Err syntax_error
          end
      | _, _, _ => Err syntax_error
      end
  end.

Definition finality_json : JSON rawdb.Finality :=
  {| json_Marshal := marshal; json_Unmarshal := unmarshal |}.

(** The text around the values of a [LockField] record. *)
Definition lock_opening : string :=
  String "{" (String quote ("Val" +:+ String quote ":")).

Definition lock_block : string :=
  String "," (String quote ("Block" +:+ String quote ":")).

Definition lock_ids : string :=
  String quote (String "," (String quote ("IdList" +:+ String quote ":{"))).

Definition member_end : string := String quote ":{}".

(** The members of the identifier object. *)
Fixpoint members (ids : list string) : string :=
  match ids with
  | [] => ""
  | id :: rest =>
      String quote (id +:+ member_end)
      +:+ match rest with [] => "" | _ :: _ => "," +:+ members rest end
  end.

Definition marshal_lock (l : rawdb.LockField) : result bytes :=
  Ok (lock_opening +:+ (if rawdb.Val l then "true" else "false")
      +:+ lock_block +:+ decimal (rawdb.LockBlock l) +:+ middle
      +:+ hex_fixed 64 (rawdb.LockHash l)
            (lock_ids +:+ members (elements (rawdb.IdList l)) +:+ "}}")).

(** Read up to the next quotation mark. *)
Fixpoint until_quote (s : string) : option (string * string) :=
  match s with
  | EmptyString => None
  | String c s' =>
      if Ascii.eqb c quote then Some (EmptyString, s')
      else
        match until_quote s' with
        | Some (id, r) => Some (String c id, r)
        | None => None
        end
  end.

(** Read the members of the identifier object; the fuel bounds the number
    of members by the length of the text. *)
Fixpoint members_take (fuel : nat) (s : string) (acc : gset string)
  : option (gset string * string) :=
  match fuel, s with
  | S fuel', String c s' =>
      if Ascii.eqb c quote then
        match until_quote s' with
        | Some (id, r) =>
            match strip_prefix ":{}" r with
            | Some (String "," r') => members_take fuel' r' ({[id]} ∪ acc)
            | Some r' => Some ({[id]} ∪ acc, r')
            | None => None
            end
        | None => None
        end
      else Some (acc, s)
  | _, _ => Some (acc, s)
  end.

Definition flag_take (s : string) : option (bool * string) :=
  match strip_prefix "true" s, strip_prefix "false" s with
  | Some r, _ => Some (true, r)
  | None, Some r => Some (false, r)
  | None, None => None
  end.

Definition unmarshal_lock (data : bytes) : result rawdb.LockField :=
  match strip_prefix lock_opening data with
  | None => Err syntax_error
  | Some r0 =>
      match flag_take r0 with
      | None => Err syntax_error
      | Some (val, r0') =>
          match strip_prefix lock_block r0' with
          | None => Err syntax_error
          | Some r1 =>
              let '(ds, r2) := dec_take r1 in
              match ds, DecimalString.NilEmpty.uint_of_string ds, strip_prefix middle r2 with
              | String _ _, Some d, Some r3 =>
                  match hex_take 64 r3 0%N with
                  | Some (h, r4) =>
                      match strip_prefix lock_ids r4 with
                      | Some r5 =>
                          match members_take (String.length r5) r5 ∅ with
                          | Some (ids, r6) =>
                              if String.eqb r6 "}}"
                              then Ok (rawdb.mkLockField val (N.of_uint d) h ids)
                              else Err syntax_error
                          | None => Err syntax_error
                          end
                      | None => Err syntax_error
                      end
                  | None => Err syntax_error
                  end
              | _, _, _ => Err syntax_error
              end
          end
      end
  end.

Definition lock_json : JSON rawdb.LockField :=
  {| json_Marshal := marshal_lock; json_Unmarshal := unmarshal_lock |}.

End canonical_json.

(** ** Sample states *)

Module sample.

(** The checkpoint's key, as it may be chosen. *)
Definition lastCheckpoint : string := "LastCheckpoint".

(** A guard locked at the boundary (100, 7) by the proposal [m1], with
    the finalized record (60, 3), over an empty store. *)
Definition locked_at_100 : milestone.t :=
  milestone.mk (finality.mk ethdb.empty 3 60 true) 100 7 true {["m1"]}.

(** A guard on which nothing was finalized or locked yet. *)
Definition fresh : milestone.t :=
  milestone.mk (finality.mk ethdb.empty common.zero 0 false) 0 common.zero false ∅.

(** A chain that ends at 150 and passes through (100, 7). *)
Definition chain_through : list types.Header :=
  [types.mkHeader 99 1; types.mkHeader 100 7; types.mkHeader 150 3].

(** The operations of the guard over the reference serialization. *)
Definition UnlockSprint := @milestone.UnlockSprint canonical_json.lock_json.
Definition UnlockMutex := @milestone.UnlockMutex canonical_json.lock_json.
Definition RemoveMilestoneID := @milestone.RemoveMilestoneID canonical_json.lock_json.
Definition LockMutex := @milestone.LockMutex canonical_json.lock_json.
Definition Process :=
  @milestone.Process lastCheckpoint canonical_json.finality_json canonical_json.lock_json.
Definition ReadLockField := @rawdb.ReadLockField canonical_json.lock_json.
Definition ReadFinality :=
  @rawdb.ReadFinality lastCheckpoint canonical_json.finality_json.
Definition WriteLastFinality :=
  @rawdb.WriteLastFinality lastCheckpoint canonical_json.finality_json.

End sample.

(** ** Notions used by the further properties *)

(** The serialization encodes [a], and decodes the encoding, which is not
    empty, back to [a]. *)
Definition roundtrips {A : Type} `{!JSON A} (a : A) : Prop :=
  exists enc, json_Marshal a = Ok enc /\ enc ≠ "" /\ json_Unmarshal enc = Ok a.

(** The lock fields of the guard, as the guard hands them to
    [rawdb.WriteLockField]. *)
Definition lock_fields (m : milestone.t) : rawdb.LockField :=
  rawdb.mkLockField (milestone.Locked m) (milestone.LockedSprintNumber m)
    (milestone.LockedSprintHash m) (milestone.LockedMilestoneIDs m).

(** [Locked] is set exactly when some identifier contributes. *)
Definition lock_consistent (m : milestone.t) : Prop :=
  milestone.Locked m = negb (bool_decide (milestone.LockedMilestoneIDs m = ∅)).

(** * Properties *)

(** ** The reference serialization at work *)

Example canonical_json_marshal_5 :
  canonical_json.marshal (rawdb.mkFinality 5 255) =
  Ok (canonical_json.opening +:+ "5" +:+ canonical_json.middle
      +:+ "00000000000000000000000000000000000000000000000000000000000000ff"
      +:+ canonical_json.closing).
Proof. reflexivity. Qed.

Example canonical_json_unmarshal_5 :
  canonical_json.unmarshal
    (canonical_json.opening +:+ "5" +:+ canonical_json.middle
      +:+ "00000000000000000000000000000000000000000000000000000000000000ff"
      +:+ canonical_json.closing)
  = Ok (rawdb.mkFinality 5 255).
Proof. vm_compute. reflexivity. Qed.

Example canonical_json_rejects_truncated_text :
  canonical_json.unmarshal "{" = Err canonical_json.syntax_error.
Proof. reflexivity. Qed.

Example canonical_json_lock_roundtrip :
  canonical_json.unmarshal_lock
    (match canonical_json.marshal_lock (rawdb.mkLockField true 100 7 {["m1"; "m2"]}) with
     | Ok enc => enc
     | Err _ => ""
     end)
  = Ok (rawdb.mkLockField true 100 7 {["m1"; "m2"]}).
Proof. vm_compute. reflexivity. Qed.

(** ** Reading the last header of a chain *)

Lemma index_last {A : Type} (s : list A) :
  index s (Z.of_nat (length s) - 1) = last s.
Proof.
  unfold index. destruct s as [|x s'] using rev_ind.
  - reflexivity.
  - rewrite length_app, last_snoc. simpl.
    destruct (Z.ltb_spec (Z.of_nat (length s' + 1) - 1) 0) as [Hneg|_]; [lia|].
    replace (Z.to_nat (Z.of_nat (length s' + 1) - 1)) with (length s') by lia.
    apply list_lookup_middle. reflexivity.
Qed.

Lemma index_last_None {A : Type} (s : list A) :
  index s (Z.of_nat (length s) - 1) = None <-> s = [].
Proof.
  rewrite index_last. split.
  - destruct s as [|x s'] using rev_ind; [reflexivity|].
    rewrite last_snoc. discriminate.
  - intros ->. reflexivity.
Qed.

Lemma IsReorgAllowed_unfold chain lastHeader n h :
  last chain = Some lastHeader ->
  milestone.IsReorgAllowed chain n h =
  if (types.height lastHeader <=? n)%N then Some false
  else Some (milestone.IsReorgAllowed_scan chain n h).
Proof.
  intros Hlast. unfold milestone.IsReorgAllowed.
  rewrite index_last, Hlast. reflexivity.
Qed.

Lemma IsReorgAllowed_panics chain n h :
  milestone.IsReorgAllowed chain n h = None <-> chain = [].
Proof.
  unfold milestone.IsReorgAllowed.
  destruct (index chain _) eqn:Hidx.
  - split.
    + destruct (_ <=? _)%N; discriminate.
    + intros ->. discriminate.
  - split; [intros _; apply index_last_None, Hidx | reflexivity].
Qed.

(** ** The scan for the locked height *)

Lemma scan_first_match pre b post n h :
  (forall x, x ∈ pre -> types.height x ≠ n) ->
  types.height b = n ->
  milestone.IsReorgAllowed_scan (pre ++ b :: post) n h
  = bool_decide (types.Hash b = h).
Proof.
  intros Hpre Hb. induction pre as [|x pre IH]; simpl.
  - rewrite (proj2 (N.eqb_eq _ _) Hb). reflexivity.
  - destruct (N.eqb_spec (types.height x) n) as [Heq|_].
    + exfalso. apply (Hpre x); [left | exact Heq].
    + apply IH. intros y Hy. apply Hpre. right. exact Hy.
Qed.

Lemma scan_no_match chain n h :
  (forall x, x ∈ chain -> types.height x ≠ n) ->
  milestone.IsReorgAllowed_scan chain n h = true.
Proof.
  intros Hall. induction chain as [|x chain IH]; simpl; [reflexivity|].
  destruct (N.eqb_spec (types.height x) n) as [Heq|_].
  - exfalso. apply (Hall x); [left | exact Heq].
  - apply IH. intros y Hy. apply Hall. right. exact Hy.
Qed.

(** A header at height [n] in the chain has a first occurrence. *)
Lemma first_at_height chain n b :
  b ∈ chain -> types.height b = n ->
  exists pre c post,
    chain = pre ++ c :: post /\
    (forall x, x ∈ pre -> types.height x ≠ n) /\
    types.height c = n.
Proof.
  induction chain as [|x chain IH]; intros Hin Hb.
  - inversion Hin.
  - destruct (decide (types.height x = n)) as [Hx|Hx].
    + exists [], x, chain. split; [reflexivity|]. split; [|exact Hx].
      intros y Hy. inversion Hy.
    + assert (Hin' : b ∈ chain).
      { apply elem_of_cons in Hin as [->|Hin]; [contradiction | exact Hin]. }
      destruct (IH Hin' Hb) as (pre & c & post & -> & Hpre & Hc).
      exists (x :: pre), c, post. split; [reflexivity|]. split; [|exact Hc].
      intros y Hy. apply elem_of_cons in Hy as [->|Hy]; [exact Hx | apply Hpre, Hy].
Qed.

(** ** [IsReorgAllowed] *)

(** The cases of section 8 of the specification for the locked boundary
    (100, 7). *)
Example IsReorgAllowed_through_locked_point :
  milestone.IsReorgAllowed sample.chain_through 100 7 = Some true.
Proof. reflexivity. Qed.

Example IsReorgAllowed_other_hash_at_locked_height :
  milestone.IsReorgAllowed
    [types.mkHeader 99 1; types.mkHeader 100 8; types.mkHeader 150 3] 100 7
  = Some false.
Proof. reflexivity. Qed.

Example IsReorgAllowed_locked_height_absent :
  milestone.IsReorgAllowed
    [types.mkHeader 120 1; types.mkHeader 121 8; types.mkHeader 150 3] 100 7
  = Some true.
Proof. reflexivity. Qed.

(** A height is the low 64 bits of the header's number. *)
Example height_wraps :
  types.height (types.mkHeader (2 ^ 64 + 100) 7) = 100%N.
Proof. reflexivity. Qed.

Example IsReorgAllowed_ends_below :
  milestone.IsReorgAllowed [types.mkHeader 89 1; types.mkHeader 90 8] 100 7
  = Some false.
Proof. reflexivity. Qed.

(** When two headers carry the locked height, the first one decides. *)
Example IsReorgAllowed_first_of_two :
  milestone.IsReorgAllowed
    [types.mkHeader 100 8; types.mkHeader 100 7; types.mkHeader 150 3] 100 7
  = Some false.
Proof. reflexivity. Qed.

(** C2: for a non-empty chain with last header [lastHeader] and a locked
    boundary [(n, h)], [IsReorgAllowed] returns [false] when the last
    height is at or below [n]; otherwise, when a header of the chain has
    height [n], it returns [true] exactly when the hash of that header
    equals [h] (the header meant is the first one at this height, which is
    the only one when no height repeats, so some header at this height
    always serves); and it returns [true] when no header has height [n]. *)
Theorem C2_IsReorgAllowed_spec
  (chain : list types.Header) (lastHeader : types.Header)
  (n : uint64) (h : common.Hash) :
  chain ≠ [] ->
  last chain = Some lastHeader ->
  ((types.height lastHeader <= n)%N ->
     milestone.IsReorgAllowed chain n h = Some false)
  /\ ((n < types.height lastHeader)%N ->
      (forall pre b post,
          chain = pre ++ b :: post ->
          (forall x, x ∈ pre -> types.height x ≠ n) ->
          types.height b = n ->
          milestone.IsReorgAllowed chain n h = Some (bool_decide (types.Hash b = h))
          /\ (milestone.IsReorgAllowed chain n h = Some true <-> types.Hash b = h))
      /\ ((forall i j x y, chain !! i = Some x -> chain !! j = Some y ->
                           types.height x = n -> types.height y = n -> i = j) ->
          forall b, b ∈ chain -> types.height b = n ->
            (milestone.IsReorgAllowed chain n h = Some true <-> types.Hash b = h))
      /\ ((exists b, b ∈ chain /\ types.height b = n) ->
          exists b, b ∈ chain /\ types.height b = n
                    /\ (milestone.IsReorgAllowed chain n h = Some true
                        <-> types.Hash b = h))
      /\ ((forall x, x ∈ chain -> types.height x ≠ n) ->
          milestone.IsReorgAllowed chain n h = Some true)).
Proof.
  intros _ Hlast. rewrite (IsReorgAllowed_unfold _ _ n h Hlast).
  split.
  - intros Hle. rewrite (proj2 (N.leb_le _ _) Hle). reflexivity.
  - intros Hlt. rewrite (proj2 (N.leb_gt _ _) Hlt).
    assert (Hfirst : forall pre b post,
               chain = pre ++ b :: post ->
               (forall x, x ∈ pre -> types.height x ≠ n) ->
               types.height b = n ->
               Some (milestone.IsReorgAllowed_scan chain n h)
               = Some (bool_decide (types.Hash b = h))
               /\ (Some (milestone.IsReorgAllowed_scan chain n h) = Some true
                   <-> types.Hash b = h)).
    { intros pre b post -> Hpre Hb.
      rewrite (scan_first_match pre b post n h Hpre Hb).
      split; [reflexivity|].
      split.
      - intros [= Hd]. apply bool_decide_eq_true in Hd. exact Hd.
      - intros Heq. f_equal. apply bool_decide_eq_true. exact Heq. }
    split; [exact Hfirst|]. split.
    + intros Huniq b Hin Hb.
      destruct (first_at_height chain n b Hin Hb) as (pre & c & post & Hchain & Hpre & Hc).
      assert (Hbc : b = c).
      { apply list_elem_of_lookup in Hin as [i Hi].
        assert (Hj : chain !! length pre = Some c).
        { rewrite Hchain. apply list_lookup_middle. reflexivity. }
        pose proof (Huniq i (length pre) b c Hi Hj Hb Hc) as ->.
        congruence. }
      subst c. exact (proj2 (Hfirst pre b post Hchain Hpre Hc)).
    + split.
      * intros (b & Hin & Hb).
        destruct (first_at_height chain n b Hin Hb)
          as (pre & c & post & Hchain & Hpre & Hc).
        exists c. split; [|split; [exact Hc|]].
        -- rewrite Hchain. apply elem_of_app. right. left.
        -- exact (proj2 (Hfirst pre c post Hchain Hpre Hc)).
      * intros Hnone. rewrite (scan_no_match chain n h Hnone). reflexivity.
Qed.

(** The chain of the specification's example, ending at 150 and passing
    through the locked point (100, 7). *)
Lemma C2_IsReorgAllowed_spec_witness :
  milestone.IsReorgAllowed sample.chain_through 100 7 = Some true
  <-> types.Hash (types.mkHeader 100 7) = 7%N.
Proof.
  refine (proj2 (proj1 (proj2 (C2_IsReorgAllowed_spec sample.chain_through
                   (types.mkHeader 150 3) 100%N 7%N _ _) _)
                   [types.mkHeader 99 1] (types.mkHeader 100 7)
                   [types.mkHeader 150 3] _ _ _)).
  - discriminate.
  - reflexivity.
  - vm_compute. reflexivity.
  - reflexivity.
  - intros x Hx. apply list_elem_of_singleton in Hx. subst x. vm_compute. discriminate.
  - reflexivity.
Defined.

(** ** [IsValidChain] *)

Section IsValidChain_properties.
Variable flags_Milestone : bool.
Variable finality_IsValidChain :
  finality.t -> types.Header -> list types.Header -> bool.

(** C1: the milestone variant's [IsValidChain] returns [true] when the
    administrative flag is off; with the flag on it returns [true]
    exactly when the base finalized-boundary check passes and either the
    guard is not [Locked] or [IsReorgAllowed] on the locked boundary
    returns [true].  On a non-empty chain it always returns. *)
Theorem C1_IsValidChain_spec
  (m : milestone.t) (currentHeader : types.Header) (chain : list types.Header) :
  (flags_Milestone = false ->
     milestone.IsValidChain flags_Milestone finality_IsValidChain m currentHeader chain
     = Some true)
  /\ (flags_Milestone = true ->
      (milestone.IsValidChain flags_Milestone finality_IsValidChain m currentHeader chain
       = Some true
       <->
       finality_IsValidChain (milestone.finality m) currentHeader chain = true
       /\ (milestone.Locked m = false
           \/ milestone.IsReorgAllowed chain (milestone.LockedSprintNumber m)
                (milestone.LockedSprintHash m) = Some true)))
  /\ (chain ≠ [] ->
      exists b,
        milestone.IsValidChain flags_Milestone finality_IsValidChain m currentHeader chain
        = Some b).
Proof.
  unfold milestone.IsValidChain. split; [|split].
  - intros ->. reflexivity.
  - intros ->. simpl.
    destruct (finality_IsValidChain _ _ _); simpl.
    + destruct (milestone.Locked m); simpl.
      * destruct (milestone.IsReorgAllowed _ _ _) as [[|]|]; simpl; split;
          try discriminate; try (intros [_ [?|?]]; discriminate); auto.
      * split; auto.
    + split; [discriminate | intros [? _]; discriminate].
  - intros Hne.
    destruct (negb flags_Milestone); [eauto|].
    destruct (negb _); [eauto|].
    destruct (milestone.Locked m); [|eauto].
    destruct (milestone.IsReorgAllowed chain _ _) as [[|]|] eqn:Hr; simpl; eauto.
    apply IsReorgAllowed_panics in Hr. contradiction.
Qed.

(** C9: [IsReorgAllowed] indexes the last element of its chain without a
    guard, so it panics on the empty chain and on no other; [IsValidChain]
    does not test for emptiness before calling it: with the flag on, it
    panics exactly when the embedded base check lets the empty chain
    through while the guard is [Locked]. *)
Theorem C9_empty_chain_unguarded
  (m : milestone.t) (currentHeader : types.Header) (chain : list types.Header)
  (n : uint64) (h : common.Hash) :
  milestone.IsReorgAllowed [] n h = None
  /\ (milestone.IsReorgAllowed chain n h = None <-> chain = [])
  /\ (milestone.IsValidChain flags_Milestone finality_IsValidChain m currentHeader chain
      = None
      <->
      flags_Milestone = true
      /\ finality_IsValidChain (milestone.finality m) currentHeader chain = true
      /\ milestone.Locked m = true
      /\ chain = []).
Proof.
  split; [reflexivity|]. split; [apply IsReorgAllowed_panics|].
  unfold milestone.IsValidChain.
  destruct flags_Milestone; simpl; [|split; [discriminate | intros [? _]; discriminate]].
  destruct (finality_IsValidChain _ _ _); simpl;
    [|split; [discriminate | intros (_ & ? & _); discriminate]].
  destruct (milestone.Locked m); simpl;
    [|split; [discriminate | intros (_ & _ & ? & _); discriminate]].
  destruct (milestone.IsReorgAllowed chain _ _) as [[|]|] eqn:Hr; simpl.
  - split; [discriminate|]. intros (_ & _ & _ & Hnil).
    rewrite (proj2 (IsReorgAllowed_panics chain _ _) Hnil) in Hr. discriminate.
  - split; [discriminate|]. intros (_ & _ & _ & Hnil).
    rewrite (proj2 (IsReorgAllowed_panics chain _ _) Hnil) in Hr. discriminate.
  - apply IsReorgAllowed_panics in Hr. split; auto.
Qed.
End IsValidChain_properties.

(** With the flag on and a base check that passes, the locked guard
    accepts the chain through the locked point. *)
Lemma C1_IsValidChain_spec_witness :
  milestone.IsValidChain true (fun _ _ _ => true) sample.locked_at_100
    (types.mkHeader 150 3) sample.chain_through
  = Some true.
Proof.
  apply (proj2 (proj1 (proj2 (C1_IsValidChain_spec true (fun _ _ _ => true)
                  sample.locked_at_100 (types.mkHeader 150 3) sample.chain_through))
                  eq_refl)).
  split; [reflexivity | right; reflexivity].
Defined.

(** A base check that lets the empty chain through exposes the panic. *)
Example IsValidChain_empty_chain_panics :
  milestone.IsValidChain true (fun _ _ _ => true) sample.locked_at_100
    (types.mkHeader 0 0) []
  = None.
Proof. reflexivity. Qed.

(** A base check that turns the empty chain down hides it. *)
Example IsValidChain_empty_chain_rejected_by_base :
  milestone.IsValidChain true (fun _ _ chain => negb (bool_decide (chain = [])))
    sample.locked_at_100 (types.mkHeader 0 0) []
  = Some false.
Proof. reflexivity. Qed.

(** ** Writing the lock fields *)

Lemma string_length_zero (s : string) : (String.length s =? 0)%nat = true <-> s = "".
Proof. destruct s; simpl; split; (reflexivity || discriminate). Qed.

Section Lock_field_store.
Context `{!JSON rawdb.LockField}.

(** The store after [WriteLockField]: untouched, or the old one with the
    encoding under the lock-field key. *)
Lemma WriteLockField_result db val block hash ids :
  let w := rawdb.WriteLockField db val block hash ids in
  (w.1 = db /\ w.2 ≠ None)
  \/ (exists enc,
        json_Marshal (rawdb.mkLockField val block hash ids) = Ok enc
        /\ ethdb.unavailable db = false
        /\ w = (ethdb.mk (<[rawdb.lockFieldKey := enc]> (ethdb.entries db)) false, None)).
Proof.
  unfold rawdb.WriteLockField, ethdb.Put. simpl.
  destruct (json_Marshal _) as [enc|err]; [|left; split; [reflexivity | discriminate]].
  destruct (ethdb.unavailable db) eqn:Hav; [left; split; [reflexivity | discriminate]|].
  right. exists enc. repeat split.
Qed.

(** A successful write of lock fields that the serialization round-trips
    is read back. *)
Lemma WriteLockField_readback db val block hash ids :
  roundtrips (rawdb.mkLockField val block hash ids) ->
  (ethdb.unavailable db = false ->
   (rawdb.WriteLockField db val block hash ids).2 = None)
  /\ ((rawdb.WriteLockField db val block hash ids).2 = None ->
      rawdb.ReadLockField (rawdb.WriteLockField db val block hash ids).1
      = Ok (val, block, hash, ids)).
Proof.
  intros (enc & Henc & Hne & Hdec). split.
  - intros Hav. unfold rawdb.WriteLockField, ethdb.Put. simpl.
    rewrite Henc, Hav. reflexivity.
  - intros Hnil.
    destruct (WriteLockField_result db val block hash ids)
      as [[_ Herr]|(enc' & Henc' & _ & Hw)]; [contradiction|].
    rewrite Henc in Henc'. injection Henc' as <-.
    rewrite Hw. unfold rawdb.ReadLockField, ethdb.Get. simpl.
    rewrite lookup_insert_eq.
    destruct (String.length enc =? 0)%nat eqn:Hlen.
    + apply string_length_zero in Hlen. contradiction.
    + rewrite Hdec. reflexivity.
Qed.

(** On an available store the encoding of the lock fields goes under the
    lock-field key and nowhere else. *)
Lemma WriteLockField_entries db val block hash ids enc :
  ethdb.unavailable db = false ->
  json_Marshal (rawdb.mkLockField val block hash ids) = Ok enc ->
  rawdb.WriteLockField db val block hash ids
  = (ethdb.mk (<[rawdb.lockFieldKey := enc]> (ethdb.entries db)) false, None).
Proof.
  intros Hav Henc. unfold rawdb.WriteLockField, ethdb.Put. simpl.
  rewrite Henc, Hav. reflexivity.
Qed.
End Lock_field_store.

(** ** The sprint-locking protocol *)

(** Split a conjunction of cases and close those that a comparison of the
    block numbers at hand decides. *)
Ltac by_cases :=
  repeat split; intros; try discriminate; try reflexivity;
  repeat match goal with
    | H : (_ <? _)%N = true |- _ => apply N.ltb_lt in H
    | H : (_ <? _)%N = false |- _ => apply N.ltb_ge in H
    end;
  try lia.

Section Protocol_properties.
Variable lastCheckpoint : string.
Context `{!JSON rawdb.Finality, !JSON rawdb.LockField}.

Lemma writeLockField_eq (m : milestone.t) :
  milestone.writeLockField m = milestone.set_db (milestone.persisted m) m.
Proof.
  unfold milestone.writeLockField, milestone.persisted.
  destruct (rawdb.WriteLockField _ _ _ _ _) as [db' e]. reflexivity.
Qed.

(** What the guard's own write leaves in an available store: the encoding
    of the guard's lock fields under the lock-field key, which reads back
    as these fields when the serialization round-trips them. *)
Lemma persisted_store (x : milestone.t) :
  ethdb.unavailable (milestone.db x) = false ->
  (forall enc,
      json_Marshal (lock_fields x) = Ok enc ->
      ethdb.entries (milestone.persisted x)
      = <[rawdb.lockFieldKey := enc]> (ethdb.entries (milestone.db x)))
  /\ (roundtrips (lock_fields x) ->
      rawdb.ReadLockField (milestone.persisted x)
      = Ok (milestone.Locked x, milestone.LockedSprintNumber x,
            milestone.LockedSprintHash x, milestone.LockedMilestoneIDs x)).
Proof.
  intros Hav. unfold milestone.persisted. split.
  - intros enc Henc.
    rewrite (WriteLockField_entries (milestone.db x) _ _ _ _ enc Hav Henc).
    reflexivity.
  - intros Hrt.
    destruct (WriteLockField_readback (milestone.db x) _ _ _ _ Hrt) as [Hwrite Hread].
    apply Hread, Hwrite, Hav.
Qed.

(** [UnlockSprint] below the locked number. *)
Lemma UnlockSprint_below (endBlockNum : uint64) (m : milestone.t) :
  (endBlockNum < milestone.LockedSprintNumber m)%N ->
  milestone.UnlockSprint endBlockNum m = m.
Proof.
  intros Hlt. unfold milestone.UnlockSprint.
  rewrite (proj2 (N.ltb_lt _ _) Hlt). reflexivity.
Qed.

(** [UnlockSprint] at or above the locked number. *)
Lemma UnlockSprint_reached (endBlockNum : uint64) (m : milestone.t) :
  (milestone.LockedSprintNumber m <= endBlockNum)%N ->
  milestone.UnlockSprint endBlockNum m =
  milestone.mk
    (finality.mk
       (milestone.persisted
          (milestone.purgeMilestoneIDsList (milestone.set_Locked false m)))
       (finality.Hash (milestone.finality m))
       (finality.Number (milestone.finality m))
       (finality.doExist (milestone.finality m)))
    (milestone.LockedSprintNumber m) (milestone.LockedSprintHash m) false ∅.
Proof.
  intros Hle. unfold milestone.UnlockSprint.
  rewrite (proj2 (N.ltb_ge _ _) Hle), writeLockField_eq. reflexivity.
Qed.

(** What [UnlockSprint] never touches. *)
Lemma UnlockSprint_frame (endBlockNum : uint64) (m : milestone.t) :
  milestone.LockedSprintNumber (milestone.UnlockSprint endBlockNum m)
  = milestone.LockedSprintNumber m
  /\ milestone.LockedSprintHash (milestone.UnlockSprint endBlockNum m)
     = milestone.LockedSprintHash m
  /\ finality.Number (milestone.finality (milestone.UnlockSprint endBlockNum m))
     = finality.Number (milestone.finality m)
  /\ finality.Hash (milestone.finality (milestone.UnlockSprint endBlockNum m))
     = finality.Hash (milestone.finality m)
  /\ finality.doExist (milestone.finality (milestone.UnlockSprint endBlockNum m))
     = finality.doExist (milestone.finality m).
Proof.
  destruct (N.lt_ge_cases endBlockNum (milestone.LockedSprintNumber m)) as [Hlt|Hge].
  - rewrite (UnlockSprint_below _ _ Hlt). repeat split.
  - rewrite (UnlockSprint_reached _ _ Hge). repeat split.
Qed.

(** C7: [UnlockSprint endBlockNum] leaves the guard as it is when
    [endBlockNum] is below the locked candidate number; otherwise it sets
    [Locked] to [false], empties [LockedMilestoneIDs] and persists the
    lock fields: it hands the cleared flag, the number, the hash and the
    empty set to [WriteLockField], after which an available store holds
    their encoding under the lock-field key, its other entries as before,
    and [ReadLockField] returns these fields when the serialization
    round-trips them. *)
Theorem C7_UnlockSprint_spec (endBlockNum : uint64) (m : milestone.t) :
  ((endBlockNum < milestone.LockedSprintNumber m)%N ->
     milestone.UnlockSprint endBlockNum m = m)
  /\ ((milestone.LockedSprintNumber m <= endBlockNum)%N ->
      let m' := milestone.UnlockSprint endBlockNum m in
      milestone.Locked m' = false
      /\ milestone.LockedMilestoneIDs m' = ∅
      /\ milestone.db m' =
         (rawdb.WriteLockField (milestone.db m) false
            (milestone.LockedSprintNumber m) (milestone.LockedSprintHash m) ∅).1
      /\ (ethdb.unavailable (milestone.db m) = false ->
          (forall enc,
              json_Marshal (rawdb.mkLockField false (milestone.LockedSprintNumber m)
                              (milestone.LockedSprintHash m) ∅) = Ok enc ->
              ethdb.entries (milestone.db m')
              = <[rawdb.lockFieldKey := enc]> (ethdb.entries (milestone.db m)))
          /\ (roundtrips (rawdb.mkLockField false (milestone.LockedSprintNumber m)
                            (milestone.LockedSprintHash m) ∅) ->
              rawdb.ReadLockField (milestone.db m')
              = Ok (false, milestone.LockedSprintNumber m,
                    milestone.LockedSprintHash m, ∅)))).
Proof.
  split.
  - apply UnlockSprint_below.
  - intros Hle m'. subst m'. rewrite (UnlockSprint_reached _ _ Hle).
    split; [reflexivity|]. split; [reflexivity|]. split; [reflexivity|].
    intros Hav.
    exact (persisted_store
             (milestone.purgeMilestoneIDsList (milestone.set_Locked false m)) Hav).
Qed.

(** C10: clearing a sprint lock touches [Locked], [LockedMilestoneIDs]
    and the store only.  [UnlockSprint], and the unlock inside [Process],
    keep [LockedSprintNumber] and [LockedSprintHash]; [LockMutex] keeps
    [LockedSprintHash], and the unlock it performs keeps the number until
    the new one is adopted.  The stale number and hash are the ones
    written to the store, and the stale number still gates a later
    [UnlockSprint] with a smaller argument, which changes nothing although
    nothing is locked. *)
Theorem C10_unlock_frame (endBlockNum later : uint64) (block : uint64)
  (hash : common.Hash) (m : milestone.t) :
  let m' := milestone.UnlockSprint endBlockNum m in
  milestone.LockedSprintNumber m' = milestone.LockedSprintNumber m
  /\ milestone.LockedSprintHash m' = milestone.LockedSprintHash m
  /\ ((milestone.LockedSprintNumber m <= endBlockNum)%N ->
      milestone.Locked m' = false
      /\ milestone.db m' =
         (rawdb.WriteLockField (milestone.db m) false
            (milestone.LockedSprintNumber m) (milestone.LockedSprintHash m) ∅).1
      /\ ((later < milestone.LockedSprintNumber m)%N ->
          milestone.UnlockSprint later m' = m'))
  /\ milestone.LockedSprintNumber (milestone.Process lastCheckpoint block hash m)
     = milestone.LockedSprintNumber m
  /\ milestone.LockedSprintHash (milestone.Process lastCheckpoint block hash m)
     = milestone.LockedSprintHash m
  /\ milestone.LockedSprintHash (milestone.LockMutex endBlockNum m).2
     = milestone.LockedSprintHash m
  /\ milestone.LockedSprintNumber
       (milestone.UnlockSprint (milestone.LockedSprintNumber m) m)
     = milestone.LockedSprintNumber m.
Proof.
  intros m'. subst m'.
  destruct (UnlockSprint_frame endBlockNum m) as (Hn & Hh & _).
  split; [exact Hn|]. split; [exact Hh|].
  split; [|split; [|split; [|split]]].
  - intros Hge. rewrite (UnlockSprint_reached _ _ Hge). simpl.
    repeat split. intros Hlater.
    apply UnlockSprint_below. simpl. exact Hlater.
  - unfold milestone.Process. destruct (_ =? _)%N; [reflexivity|].
    rewrite (proj1 (UnlockSprint_frame _ _)). reflexivity.
  - unfold milestone.Process. destruct (_ =? _)%N; [reflexivity|].
    rewrite (proj1 (proj2 (UnlockSprint_frame _ _))). reflexivity.
  - unfold milestone.LockMutex.
    destruct (_ && _); [reflexivity|].
    destruct (_ && _); [|reflexivity].
    destruct (_ <? _)%N; [reflexivity|]. simpl.
    apply (proj1 (proj2 (UnlockSprint_frame _ _))).
  - apply (proj1 (UnlockSprint_frame _ _)).
Qed.

(** C3: [LockMutex endBlockNum] returns [false], changing nothing, when a
    finalized record exists at a height at or above [endBlockNum], and
    when the guard is [Locked] at a number above [endBlockNum].  When the
    guard is [Locked] at a number below [endBlockNum] (and the candidate
    is not stale) the old lock is first cleared as [UnlockSprint] at the
    old number clears it, and then [endBlockNum] is adopted.  On every
    path that does not return [false] it returns [true] with
    [LockedSprintNumber] set to [endBlockNum]. *)
Theorem C3_LockMutex_spec (endBlockNum : uint64) (m : milestone.t) :
  let stale := milestone.doExist m && (endBlockNum <=? milestone.Number m)%N in
  let older :=
    milestone.Locked m && (endBlockNum <? milestone.LockedSprintNumber m)%N in
  let newer :=
    milestone.Locked m && (milestone.LockedSprintNumber m <? endBlockNum)%N in
  (milestone.LockMutex endBlockNum m).1 = negb (stale || older)
  /\ (stale = true -> milestone.LockMutex endBlockNum m = (false, m))
  /\ (older = true -> milestone.LockMutex endBlockNum m = (false, m))
  /\ (stale = false -> newer = true ->
      milestone.LockMutex endBlockNum m =
      (true,
       milestone.set_LockedSprintNumber endBlockNum
         (milestone.set_Locked false
            (milestone.UnlockSprint (milestone.LockedSprintNumber m) m)))
      /\ milestone.Locked (milestone.LockMutex endBlockNum m).2 = false
      /\ milestone.LockedMilestoneIDs (milestone.LockMutex endBlockNum m).2 = ∅)
  /\ (stale = false -> older = false -> newer = false ->
      milestone.LockMutex endBlockNum m =
      (true, milestone.set_LockedSprintNumber endBlockNum m))
  /\ ((milestone.LockMutex endBlockNum m).1 = true ->
      milestone.LockedSprintNumber (milestone.LockMutex endBlockNum m).2 = endBlockNum)
  /\ ((milestone.LockMutex endBlockNum m).1 = false ->
      (milestone.LockMutex endBlockNum m).2 = m).
Proof.
  intros stale older newer. subst stale older newer.
  unfold milestone.LockMutex.
  destruct (milestone.doExist m && (endBlockNum <=? milestone.Number m)%N) eqn:Hstale;
    simpl; [by_cases|].
  destruct (milestone.Locked m) eqn:Hlocked; simpl; [|by_cases].
  destruct (N.eqb_spec endBlockNum (milestone.LockedSprintNumber m)) as [Heq|Hne]; simpl.
  { rewrite <- Heq, N.ltb_irrefl. by_cases. }
  destruct (N.ltb_spec endBlockNum (milestone.LockedSprintNumber m)) as [Hlt|Hge]; simpl;
    [by_cases|].
  by_cases.
  rewrite (UnlockSprint_reached _ _ (N.le_refl _)). reflexivity.
Qed.

(** C4: [Process b h] changes nothing when [b] is the finalized height,
    whatever [h] is; for every other [b], lower ones included, the
    finalized record becomes [(b, h)] and the sprint-unlock cleanup runs
    for [b]: a lock whose number is at or below [b] is cleared with its
    identifier set, a lock above [b] is kept. *)
Theorem C4_Process_spec (b : uint64) (h : common.Hash) (m : milestone.t) :
  let m' := milestone.Process lastCheckpoint b h m in
  (milestone.Number m = b -> m' = m)
  /\ (milestone.Number m ≠ b ->
      m' = milestone.UnlockSprint b
             (milestone.set_finality
                (finality.Process lastCheckpoint rawdb.Milestone
                   (milestone.finality m) b h) m)
      /\ finality.Number (milestone.finality m') = b
      /\ finality.Hash (milestone.finality m') = h
      /\ ((milestone.LockedSprintNumber m <= b)%N ->
          milestone.Locked m' = false /\ milestone.LockedMilestoneIDs m' = ∅)
      /\ ((b < milestone.LockedSprintNumber m)%N ->
          milestone.Locked m' = milestone.Locked m
          /\ milestone.LockedMilestoneIDs m' = milestone.LockedMilestoneIDs m
          /\ milestone.db m' =
             (rawdb.WriteLastFinality lastCheckpoint rawdb.Milestone
                (milestone.db m) b h).1)).
Proof.
  intros m'. subst m'. unfold milestone.Process. split.
  - intros Heq. rewrite (proj2 (N.eqb_eq _ _) Heq). reflexivity.
  - intros Hne. rewrite (proj2 (N.eqb_neq _ _) Hne).
    split; [reflexivity|].
    set (m1 := milestone.set_finality _ m).
    assert (Hn1 : milestone.LockedSprintNumber m1 = milestone.LockedSprintNumber m)
      by reflexivity.
    assert (Hfin : finality.Number (milestone.finality m1) = b
                   /\ finality.Hash (milestone.finality m1) = h).
    { subst m1. unfold finality.Process. simpl.
      destruct (rawdb.WriteLastFinality _ _ _ _ _). split; reflexivity. }
    destruct (N.lt_ge_cases b (milestone.LockedSprintNumber m)) as [Hlt|Hge].
    + rewrite UnlockSprint_below by (rewrite Hn1; exact Hlt).
      split; [apply Hfin|]. split; [apply Hfin|]. split.
      * intros Hle. lia.
      * intros _. split; [reflexivity|]. split; [reflexivity|].
        subst m1. unfold milestone.db, finality.Process. simpl.
        destruct (rawdb.WriteLastFinality _ _ _ _ _). reflexivity.
    + rewrite UnlockSprint_reached by (rewrite Hn1; exact Hge). simpl.
      split; [apply Hfin|]. split; [apply Hfin|]. split.
      * intros _. split; reflexivity.
      * intros Hlt. lia.
Qed.

(** C6: after [UnlockMutex confirm proposal_id end_hash], [Locked] is the
    old [Locked] or [confirm]; a confirming round records [end_hash] and
    adds [proposal_id] to the identifier set, a round that does not
    confirm leaves hash and set as they were; and on either path the
    lock fields, as they are after the update, are persisted: they are
    handed to [WriteLockField], after which an available store holds
    their encoding under the lock-field key, its other entries as before,
    and [ReadLockField] returns these fields when the serialization
    round-trips them. *)
Theorem C6_UnlockMutex_spec (confirm : bool) (proposal_id : string)
  (end_hash : common.Hash) (m : milestone.t) :
  let m' := milestone.UnlockMutex confirm proposal_id end_hash m in
  milestone.Locked m' = milestone.Locked m || confirm
  /\ milestone.LockedSprintNumber m' = milestone.LockedSprintNumber m
  /\ (confirm = true ->
      milestone.LockedSprintHash m' = end_hash
      /\ proposal_id ∈ milestone.LockedMilestoneIDs m'
      /\ milestone.LockedMilestoneIDs m' = {[proposal_id]} ∪ milestone.LockedMilestoneIDs m)
  /\ (confirm = false ->
      milestone.LockedSprintHash m' = milestone.LockedSprintHash m
      /\ milestone.LockedMilestoneIDs m' = milestone.LockedMilestoneIDs m)
  /\ milestone.db m' =
     (rawdb.WriteLockField (milestone.db m) (milestone.Locked m')
        (milestone.LockedSprintNumber m') (milestone.LockedSprintHash m')
        (milestone.LockedMilestoneIDs m')).1
  /\ (ethdb.unavailable (milestone.db m) = false ->
      (forall enc,
          json_Marshal (lock_fields m') = Ok enc ->
          ethdb.entries (milestone.db m')
          = <[rawdb.lockFieldKey := enc]> (ethdb.entries (milestone.db m)))
      /\ (roundtrips (lock_fields m') ->
          rawdb.ReadLockField (milestone.db m')
          = Ok (milestone.Locked m', milestone.LockedSprintNumber m',
                milestone.LockedSprintHash m', milestone.LockedMilestoneIDs m'))).
Proof.
  intros m'. subst m'. unfold milestone.UnlockMutex.
  rewrite writeLockField_eq. destruct confirm.
  - split; [reflexivity|]. split; [reflexivity|]. split.
    { intros _. simpl. repeat split.
      apply elem_of_union_l, elem_of_singleton. reflexivity. }
    split; [discriminate|]. split; [reflexivity|].
    intros Hav.
    match goal with
    | |- context [milestone.persisted ?y] => exact (persisted_store y Hav)
    end.
  - split; [reflexivity|]. split; [reflexivity|]. split; [discriminate|].
    split; [intros _; split; reflexivity|]. split; [reflexivity|].
    intros Hav.
    match goal with
    | |- context [milestone.persisted ?y] => exact (persisted_store y Hav)
    end.
Qed.

(** [RemoveMilestoneID], field by field. *)
Lemma RemoveMilestoneID_fields (id : string) (m : milestone.t) :
  let m' := milestone.RemoveMilestoneID id m in
  milestone.LockedMilestoneIDs m' = milestone.LockedMilestoneIDs m ∖ {[id]}
  /\ milestone.Locked m' =
     (if decide (milestone.LockedMilestoneIDs m ∖ {[id]} = ∅)
      then false else milestone.Locked m).
Proof.
  intros m'. subst m'. unfold milestone.RemoveMilestoneID.
  rewrite writeLockField_eq. simpl.
  destruct (Nat.eqb_spec (size (milestone.LockedMilestoneIDs m ∖ {[id]})) 0) as [Hz|Hnz];
    simpl.
  - apply size_empty_iff, leibniz_equiv in Hz.
    rewrite decide_True by exact Hz. split; reflexivity.
  - rewrite decide_False; [split; reflexivity|].
    intros Hempty. apply Hnz. rewrite Hempty. apply size_empty.
Qed.

Lemma lock_invariant_run (o : milestone.op) (m : milestone.t) :
  milestone.lock_invariant m ->
  milestone.lock_invariant (milestone.run lastCheckpoint o m).
Proof.
  unfold milestone.lock_invariant. intros Hinv.
  assert (Hsprint : forall e x,
             (milestone.Locked x = false -> milestone.LockedMilestoneIDs x = ∅) ->
             milestone.Locked (milestone.UnlockSprint e x) = false ->
             milestone.LockedMilestoneIDs (milestone.UnlockSprint e x) = ∅).
  { intros e x Hx.
    destruct (N.lt_ge_cases e (milestone.LockedSprintNumber x)) as [Hlt|Hge].
    - rewrite (UnlockSprint_below _ _ Hlt). exact Hx.
    - rewrite (UnlockSprint_reached _ _ Hge). reflexivity. }
  destruct o as [n|doLock id h|n|id|b h]; simpl.
  - unfold milestone.LockMutex.
    destruct (_ && _); [exact Hinv|].
    destruct (_ && _); [|exact Hinv].
    destruct (_ <? _)%N; [exact Hinv|]. simpl. intros _.
    rewrite (UnlockSprint_reached _ _ (N.le_refl _)). reflexivity.
  - unfold milestone.UnlockMutex. rewrite writeLockField_eq.
    destruct doLock; simpl.
    + rewrite orb_true_r. discriminate.
    + rewrite orb_false_r. exact Hinv.
  - apply Hsprint, Hinv.
  - destruct (RemoveMilestoneID_fields id m) as [-> ->].
    destruct (decide _) as [Hempty|Hempty]; [intros _; exact Hempty|].
    intros Hunlocked. rewrite (Hinv Hunlocked) in Hempty.
    exfalso. apply Hempty, difference_disjoint_L, disjoint_empty_l.
  - unfold milestone.Process. destruct (_ =? _)%N; [exact Hinv|].
    apply Hsprint. exact Hinv.
Qed.

(** C5: "[LockedMilestoneIDs] is empty whenever [Locked] is [false]" is
    an invariant of the guard: from a state that satisfies it, each of
    [LockMutex], [UnlockMutex], [UnlockSprint], [RemoveMilestoneID] and
    [Process], and so every sequence of them, leads to a state that
    satisfies it.  Removing the last remaining identifier clears
    [Locked], and an operation that leaves the identifier set empty where
    it was not empty before leaves [Locked] cleared as well. *)
Theorem C5_lock_invariant (m : milestone.t) :
  milestone.lock_invariant m ->
  (forall o, milestone.lock_invariant (milestone.run lastCheckpoint o m))
  /\ (forall ops,
         milestone.lock_invariant
           (foldl (fun s o => milestone.run lastCheckpoint o s) m ops))
  /\ (forall id,
         milestone.LockedMilestoneIDs m = {[id]} ->
         milestone.Locked (milestone.RemoveMilestoneID id m) = false
         /\ milestone.LockedMilestoneIDs (milestone.RemoveMilestoneID id m) = ∅)
  /\ (forall o,
         milestone.LockedMilestoneIDs m ≠ ∅ ->
         milestone.LockedMilestoneIDs (milestone.run lastCheckpoint o m) = ∅ ->
         milestone.Locked (milestone.run lastCheckpoint o m) = false).
Proof.
  intros Hinv. split; [|split; [|split]].
  - intros o. apply lock_invariant_run, Hinv.
  - intros ops. revert m Hinv.
    induction ops as [|o ops IH]; intros m Hinv; simpl; [exact Hinv|].
    apply IH, lock_invariant_run, Hinv.
  - intros id Hids.
    destruct (RemoveMilestoneID_fields id m) as [-> ->].
    assert (Hempty : milestone.LockedMilestoneIDs m ∖ {[id]} = ∅)
      by (rewrite Hids; apply difference_diag_L).
    rewrite decide_True by exact Hempty. split; [reflexivity | exact Hempty].
  - intros o Hne.
    destruct o as [n|doLock id h|n|id|b h]; simpl.
    + unfold milestone.LockMutex.
      destruct (_ && _); [contradiction|].
      destruct (_ && _); [|contradiction].
      destruct (_ <? _)%N; [contradiction|]. reflexivity.
    + unfold milestone.UnlockMutex. rewrite writeLockField_eq.
      destruct doLock; simpl; [|contradiction].
      intros Hempty. exfalso.
      apply (not_elem_of_empty (C:=gset string) id). rewrite <- Hempty.
      apply elem_of_union_l, elem_of_singleton. reflexivity.
    + destruct (N.lt_ge_cases n (milestone.LockedSprintNumber m)) as [Hlt|Hge].
      * rewrite (UnlockSprint_below _ _ Hlt). contradiction.
      * rewrite (UnlockSprint_reached _ _ Hge). reflexivity.
    + destruct (RemoveMilestoneID_fields id m) as [-> ->].
      intros Hempty. rewrite decide_True by exact Hempty. reflexivity.
    + unfold milestone.Process. destruct (_ =? _)%N; [contradiction|].
      set (m1 := milestone.set_finality _ m).
      destruct (N.lt_ge_cases b (milestone.LockedSprintNumber m1)) as [Hlt|Hge].
      * rewrite (UnlockSprint_below _ _ Hlt). contradiction.
      * rewrite (UnlockSprint_reached _ _ Hge). reflexivity.
Qed.
End Protocol_properties.

(** ** The protocol on the sample guard

    The cases of section 8 of the specification, run on the guard locked
    at (100, 7) over the reference serialization. *)

(** [unlock_sprint(90)] when locked at 100 is a no-op; [unlock_sprint(150)]
    clears the lock, empties the identifier set and leaves the cleared
    lock fields in the store. *)
Lemma C7_UnlockSprint_spec_witness :
  sample.UnlockSprint 90 sample.locked_at_100 = sample.locked_at_100
  /\ milestone.Locked (sample.UnlockSprint 150 sample.locked_at_100) = false
  /\ milestone.LockedMilestoneIDs (sample.UnlockSprint 150 sample.locked_at_100) = ∅
  /\ sample.ReadLockField (milestone.db (sample.UnlockSprint 150 sample.locked_at_100))
     = Ok (false, 100%N, 7%N, ∅).
Proof.
  split.
  - apply (proj1 (C7_UnlockSprint_spec (JSON1 := canonical_json.lock_json)
                    90 sample.locked_at_100)).
    reflexivity.
  - pose proof (proj2 (C7_UnlockSprint_spec (JSON1 := canonical_json.lock_json)
                         150 sample.locked_at_100)) as Hclear.
    destruct Hclear as (Hlocked & Hids & _ & Hstore); [discriminate|].
    destruct (Hstore eq_refl) as [_ Hread].
    split; [exact Hlocked|]. split; [exact Hids|].
    apply Hread.
    eexists. split; [reflexivity|]. split; [discriminate|]. vm_compute. reflexivity.
Defined.

(** The store then holds the cleared flag next to the old boundary. *)
Example UnlockSprint_persists_stale_boundary :
  sample.ReadLockField (milestone.db (sample.UnlockSprint 150 sample.locked_at_100))
  = Ok (false, 100%N, 7%N, ∅).
Proof. vm_compute. reflexivity. Qed.

(** After the lock at 100 was cleared, [unlock_sprint(90)] is still a
    no-op. *)
Lemma C10_unlock_frame_witness :
  sample.UnlockSprint 90 (sample.UnlockSprint 150 sample.locked_at_100)
  = sample.UnlockSprint 150 sample.locked_at_100.
Proof.
  pose proof (C10_unlock_frame sample.lastCheckpoint
                (JSON0 := canonical_json.finality_json)
                (JSON1 := canonical_json.lock_json)
                150 90 0 0 sample.locked_at_100) as Hframe.
  destruct Hframe as (_ & _ & Hstale & _).
  destruct Hstale as (_ & _ & Hlater); [discriminate|].
  apply Hlater. reflexivity.
Defined.

(** [lock_mutex(50)] is rejected when the finalized record is at 60. *)
Lemma C3_LockMutex_spec_witness :
  sample.LockMutex 50 sample.locked_at_100 = (false, sample.locked_at_100).
Proof.
  apply (proj1 (proj2 (C3_LockMutex_spec (JSON1 := canonical_json.lock_json)
                         50 sample.locked_at_100))).
  reflexivity.
Defined.

Example LockMutex_older_boundary_rejected :
  sample.LockMutex 90 sample.locked_at_100 = (false, sample.locked_at_100).
Proof. reflexivity. Qed.

Example LockMutex_newer_boundary_adopted :
  let r := sample.LockMutex 120 sample.locked_at_100 in
  r.1 = true
  /\ milestone.LockedSprintNumber r.2 = 120%N
  /\ milestone.Locked r.2 = false
  /\ milestone.LockedMilestoneIDs r.2 = ∅
  /\ milestone.LockedSprintHash r.2 = 7%N.
Proof. repeat split. Qed.

Example LockMutex_same_boundary_continues :
  sample.LockMutex 100 sample.locked_at_100 = (true, sample.locked_at_100).
Proof. reflexivity. Qed.

(** A second confirmation at the finalized height 60, with another hash,
    changes nothing. *)
Lemma C4_Process_spec_witness :
  sample.Process 60 99 sample.locked_at_100 = sample.locked_at_100.
Proof.
  apply (proj1 (C4_Process_spec sample.lastCheckpoint
                  (JSON0 := canonical_json.finality_json)
                  (JSON1 := canonical_json.lock_json)
                  60 99 sample.locked_at_100)).
  reflexivity.
Defined.

(** A confirmation below the finalized height is applied all the same. *)
Example Process_lower_height_applied :
  let m' := sample.Process 40 9 sample.locked_at_100 in
  finality.Number (milestone.finality m') = 40%N
  /\ finality.Hash (milestone.finality m') = 9%N
  /\ milestone.Locked m' = true
  /\ sample.ReadFinality rawdb.Milestone (milestone.db m') = Ok (40%N, 9%N).
Proof. vm_compute. repeat split. Qed.

(** A confirmation past the locked boundary releases the lock. *)
Example Process_releases_lock :
  let m' := sample.Process 120 9 sample.locked_at_100 in
  finality.Number (milestone.finality m') = 120%N
  /\ milestone.Locked m' = false
  /\ milestone.LockedMilestoneIDs m' = ∅
  /\ milestone.LockedSprintNumber m' = 100%N.
Proof. repeat split. Qed.

(** A confirming round on the sample guard, and what the store holds
    after it. *)
Lemma C6_UnlockMutex_spec_witness :
  milestone.LockedSprintHash (sample.UnlockMutex true "m2" 9 sample.locked_at_100) = 9%N
  /\ "m2" ∈ milestone.LockedMilestoneIDs
              (sample.UnlockMutex true "m2" 9 sample.locked_at_100)
  /\ sample.ReadLockField
       (milestone.db (sample.UnlockMutex true "m2" 9 sample.locked_at_100))
     = Ok (true, 100%N, 9%N, {["m1"; "m2"]}).
Proof.
  pose proof (C6_UnlockMutex_spec (JSON1 := canonical_json.lock_json)
                true "m2" 9 sample.locked_at_100) as Hspec.
  destruct Hspec as (_ & _ & Hconfirm & _ & _ & Hstore).
  destruct (Hconfirm eq_refl) as (Hhash & Hin & _).
  destruct (Hstore eq_refl) as [_ Hread].
  split; [exact Hhash|]. split; [exact Hin|].
  apply Hread.
  eexists. split; [reflexivity|]. split; [discriminate|]. vm_compute. reflexivity.
Defined.

Example UnlockMutex_without_confirmation_keeps_lock :
  let m' := sample.UnlockMutex false "m2" 9 sample.locked_at_100 in
  milestone.Locked m' = true
  /\ milestone.LockedSprintHash m' = 7%N
  /\ milestone.LockedMilestoneIDs m' = {["m1"]}
  /\ sample.ReadLockField (milestone.db m') = Ok (true, 100%N, 7%N, {["m1"]}).
Proof. vm_compute. repeat split. Qed.

Example UnlockMutex_confirmation_persisted :
  sample.ReadLockField
    (milestone.db (sample.UnlockMutex true "m2" 9 sample.locked_at_100))
  = Ok (true, 100%N, 9%N, {["m1"; "m2"]}).
Proof. vm_compute. reflexivity. Qed.

(** Removing the last identifier of the sample guard, which satisfies the
    invariant, clears the lock. *)
Lemma C5_lock_invariant_witness :
  milestone.Locked (sample.RemoveMilestoneID "m1" sample.locked_at_100) = false
  /\ milestone.LockedMilestoneIDs (sample.RemoveMilestoneID "m1" sample.locked_at_100) = ∅.
Proof.
  assert (Hinv : milestone.lock_invariant sample.locked_at_100)
    by (intros Hunlocked; discriminate Hunlocked).
  pose proof (C5_lock_invariant sample.lastCheckpoint
                (JSON0 := canonical_json.finality_json)
                (JSON1 := canonical_json.lock_json)
                sample.locked_at_100 Hinv) as Hspec.
  destruct Hspec as (_ & _ & Hlast & _).
  apply (Hlast "m1"). reflexivity.
Defined.

Example lock_invariant_fresh : milestone.lock_invariant sample.fresh.
Proof. intros _. reflexivity. Qed.

(** ** The reference serialization is faithful *)

Lemma strip_prefix_append (p s : string) :
  canonical_json.strip_prefix p (p +:+ s) = Some s.
Proof.
  induction p as [|a p IH]; simpl; [reflexivity|].
  rewrite Ascii.eqb_refl. exact IH.
Qed.

Lemma dec_take_digits (d : Decimal.uint) (c : ascii) (r : string) :
  canonical_json.is_digit c = false ->
  canonical_json.dec_take (DecimalString.NilEmpty.string_of_uint d +:+ String c r)
  = (DecimalString.NilEmpty.string_of_uint d, String c r).
Proof.
  intros Hc. induction d as [|d IH|d IH|d IH|d IH|d IH|d IH|d IH|d IH|d IH|d IH];
    simpl; try (rewrite IH; reflexivity).
  rewrite Hc. reflexivity.
Qed.

Lemma decimal_nonempty (n : N) :
  exists a s, canonical_json.decimal n = String a s.
Proof.
  unfold canonical_json.decimal. destruct n as [|p]; simpl; [eauto|].
  pose proof (DecimalPos.Unsigned.to_uint_nonnil p) as Hnil.
  destruct (Pos.to_uint p); simpl; eauto. contradiction.
Qed.

Lemma hex_value_digit (v : N) :
  (v < 16)%N -> canonical_json.hex_value (canonical_json.hex_digit v) = Some v.
Proof.
  intros Hv.
  assert (Hcases : (v = 0 \/ v = 1 \/ v = 2 \/ v = 3 \/ v = 4 \/ v = 5 \/ v = 6 \/ v = 7
                    \/ v = 8 \/ v = 9 \/ v = 10 \/ v = 11 \/ v = 12 \/ v = 13 \/ v = 14
                    \/ v = 15)%N) by lia.
  repeat (destruct Hcases as [->|Hcases]; [reflexivity|]). subst v. reflexivity.
Qed.

Lemma hex_take_split (k j : nat) (s : string) (acc : N) :
  canonical_json.hex_take (k + j) s acc =
  match canonical_json.hex_take k s acc with
  | Some (v, r) => canonical_json.hex_take j r v
  | None => None
  end.
Proof.
  revert s acc. induction k as [|k IH]; intros s acc; simpl; [reflexivity|].
  destruct s as [|c s]; [reflexivity|].
  destruct (canonical_json.hex_value c); [apply IH | reflexivity].
Qed.

Lemma hex_take_fixed (k : nat) (h : N) (rest : string) (acc : N) :
  canonical_json.hex_take k (canonical_json.hex_fixed k h rest) acc
  = Some ((acc * 16 ^ N.of_nat k + h mod 16 ^ N.of_nat k)%N, rest).
Proof.
  revert h rest acc. induction k as [|k IH]; intros h rest acc.
  - simpl. rewrite N.mod_1_r, N.mul_1_r, N.add_0_r. reflexivity.
  - replace (S k) with (k + 1)%nat at 1 by lia.
    rewrite hex_take_split. simpl canonical_json.hex_fixed. rewrite IH.
    simpl canonical_json.hex_take.
    rewrite hex_value_digit by (apply N.mod_lt; discriminate).
    f_equal. f_equal.
    rewrite Nat2N.inj_succ, N.pow_succ_r'.
    rewrite (N.Div0.mod_mul_r h 16 (16 ^ N.of_nat k)). lia.
Qed.

(** Every record whose hash fits in 32 bytes is encoded to a text that is
    not empty and decodes to the same record. *)
Lemma canonical_json_faithful (n : uint64) (h : common.Hash) :
  (h < 2 ^ 256)%N ->
  forall enc,
    canonical_json.marshal (rawdb.mkFinality n h) = Ok enc ->
    enc ≠ "" /\ canonical_json.unmarshal enc = Ok (rawdb.mkFinality n h).
Proof.
  intros Hh enc Henc. unfold canonical_json.marshal in Henc.
  cbn [rawdb.Block rawdb.Hash] in Henc.
  pose proof (hex_take_fixed 64 h canonical_json.closing 0) as Hhex.
  remember (canonical_json.hex_fixed 64 h canonical_json.closing) as tail eqn:Htail.
  clear Htail.
  injection Henc as <-.
  split; [discriminate|].
  unfold canonical_json.unmarshal.
  rewrite strip_prefix_append.
  change (canonical_json.middle +:+ tail)
    with (String "," (String canonical_json.quote
            ("Hash" +:+ String canonical_json.quote
               (String ":" (String canonical_json.quote "0x")) +:+ tail))).
  unfold canonical_json.decimal.
  rewrite dec_take_digits by reflexivity.
  destruct (decimal_nonempty n) as (a & s & Hdec).
  unfold canonical_json.decimal in Hdec.
  pose proof (DecimalString.NilEmpty.usu (N.to_uint n)) as Hparse.
  rewrite Hdec in Hparse |- *. rewrite Hparse.
  change (String "," (String canonical_json.quote
            ("Hash" +:+ String canonical_json.quote
               (String ":" (String canonical_json.quote "0x")) +:+ tail)))
    with (canonical_json.middle +:+ tail).
  rewrite strip_prefix_append, Hhex.
  rewrite String.eqb_refl, DecimalN.Unsigned.of_to.
  rewrite N.mul_0_l, N.add_0_l.
  rewrite N.mod_small by exact Hh. reflexivity.
Qed.

(** ** The persistence layer *)

Section Persistence_properties.
Variable lastCheckpoint : string.
Context `{!JSON rawdb.Finality}.

(** A write that reports no error stored the encoding under the
    variant's key. *)
Lemma WriteLastFinality_stored T db n h db' :
  rawdb.WriteLastFinality lastCheckpoint T db n h = (db', None) ->
  exists enc,
    json_Marshal (rawdb.mkFinality n h) = Ok enc
    /\ ethdb.unavailable db = false
    /\ ethdb.entries db' = <[(rawdb.getKey lastCheckpoint T).2 := enc]> (ethdb.entries db).
Proof.
  unfold rawdb.WriteLastFinality, ethdb.Put.
  destruct (rawdb.getKey lastCheckpoint T) as [lastTV key] eqn:Hkey.
  unfold rawdb.set. simpl.
  destruct (json_Marshal _) as [enc|err]; [|discriminate].
  destruct (ethdb.unavailable db); [discriminate|].
  intros [= <-]. exists enc. repeat split.
Qed.

(** C8: with a serialization that is faithful on the record [(n, h)]
    (what it encodes is not empty and decodes to the same record),
    [WriteLastFinality n h] followed by [ReadFinality] returns exactly
    [(n, h)] and no error, for either variant and whatever the store held
    before; the write does succeed on an available store.  On a store
    whose key is absent or holds an empty value [ReadFinality] fails with
    an error of class [NotFound]; on stored bytes that do not decode it
    fails with an error of class [Corrupt] that carries the cause and
    the raw bytes. *)
Theorem C8_finality_roundtrip (T : rawdb.BlockFinality) (db : ethdb.KeyValueStore)
  (n : uint64) (h : common.Hash) :
  (forall enc,
      json_Marshal (rawdb.mkFinality n h) = Ok enc ->
      enc ≠ "" /\ json_Unmarshal enc = Ok (rawdb.mkFinality n h)) ->
  let key := (rawdb.getKey lastCheckpoint T).2 in
  (forall db',
      rawdb.WriteLastFinality lastCheckpoint T db n h = (db', None) ->
      rawdb.ReadFinality lastCheckpoint T db' = Ok (n, h))
  /\ (forall enc,
        ethdb.unavailable db = false ->
        json_Marshal (rawdb.mkFinality n h) = Ok enc ->
        (rawdb.WriteLastFinality lastCheckpoint T db n h).2 = None
        /\ rawdb.ReadFinality lastCheckpoint T
             (rawdb.WriteLastFinality lastCheckpoint T db n h).1 = Ok (n, h))
  /\ (ethdb.entries db !! key = None ->
      exists e, rawdb.ReadFinality lastCheckpoint T db = Err e /\ IsNotFound e = true)
  /\ (ethdb.entries db !! key = Some ("" : bytes) ->
      exists e, rawdb.ReadFinality lastCheckpoint T db = Err e /\ IsNotFound e = true)
  /\ (forall (data : bytes) (cause : error),
        ethdb.entries db !! key = Some data -> data ≠ "" ->
        json_Unmarshal data = Err cause ->
        exists e,
          rawdb.ReadFinality lastCheckpoint T db = Err e
          /\ IsCorrupt e = true /\ IsNotFound e = false
          /\ exists format args,
              e = Errorf format (Sentinel ErrIncorrectFinality) args
              /\ ArgErr cause ∈ args /\ ArgBytes data ∈ args).
Proof.
  intros Hfaithful key.
  assert (Hread : forall db',
             rawdb.WriteLastFinality lastCheckpoint T db n h = (db', None) ->
             rawdb.ReadFinality lastCheckpoint T db' = Ok (n, h)).
  { intros db' Hwrite.
    destruct (WriteLastFinality_stored _ _ _ _ _ Hwrite) as (enc & Henc & _ & Hentries).
    destruct (Hfaithful enc Henc) as [Hne Hdec].
    unfold rawdb.ReadFinality, ethdb.Get.
    destruct (rawdb.getKey lastCheckpoint T) as [lastTV k].
    rewrite Hentries. simpl. rewrite lookup_insert_eq.
    destruct (String.length enc =? 0)%nat eqn:Hlen.
    - apply string_length_zero in Hlen. contradiction.
    - rewrite Hdec. reflexivity. }
  split; [exact Hread|]. split; [|split; [|split]].
  - intros enc Havail Henc.
    assert (Hwrite : exists db',
               rawdb.WriteLastFinality lastCheckpoint T db n h = (db', None)).
    { unfold rawdb.WriteLastFinality, ethdb.Put.
      destruct (rawdb.getKey lastCheckpoint T) as [lastTV k].
      unfold rawdb.set. rewrite Henc, Havail. eauto. }
    destruct Hwrite as [db' Hwrite]. rewrite Hwrite. simpl.
    split; [reflexivity | apply Hread, Hwrite].
  - subst key. intros Habsent. unfold rawdb.ReadFinality, ethdb.Get.
    destruct (rawdb.getKey lastCheckpoint T) as [lastTV k]. simpl in Habsent.
    rewrite Habsent. eexists. split; reflexivity.
  - subst key. intros Hempty. unfold rawdb.ReadFinality, ethdb.Get.
    destruct (rawdb.getKey lastCheckpoint T) as [lastTV k]. simpl in Hempty.
    rewrite Hempty. simpl. eexists. split; reflexivity.
  - subst key. intros data cause Hdata Hne Hdec.
    unfold rawdb.ReadFinality, ethdb.Get.
    destruct (rawdb.getKey lastCheckpoint T) as [lastTV k]. simpl in Hdata.
    rewrite Hdata.
    destruct (String.length data =? 0)%nat eqn:Hlen.
    + apply string_length_zero in Hlen. contradiction.
    + rewrite Hdec. eexists. split; [reflexivity|].
      split; [reflexivity|]. split; [reflexivity|].
      eexists _, _. split; [reflexivity|].
      split; [left | right; right; left].
Qed.
End Persistence_properties.

(** The round trip of the record (5, 255) through an empty store, over the
    reference serialization. *)
Lemma C8_finality_roundtrip_witness :
  sample.ReadFinality rawdb.Milestone
    (sample.WriteLastFinality rawdb.Milestone ethdb.empty 5 255).1
  = Ok (5%N, 255%N).
Proof.
  pose proof (C8_finality_roundtrip sample.lastCheckpoint
                (JSON0 := canonical_json.finality_json)
                rawdb.Milestone ethdb.empty 5 255
                (canonical_json_faithful 5 255 eq_refl)) as Hspec.
  destruct Hspec as (_ & Hwrite & _).
  destruct (Hwrite _ eq_refl eq_refl) as [_ Hread].
  exact Hread.
Defined.

Example ReadFinality_before_any_write :
  exists e,
    sample.ReadFinality rawdb.Milestone ethdb.empty = Err e /\ IsNotFound e = true.
Proof. eexists. split; reflexivity. Qed.

Example ReadFinality_corrupt_bytes :
  exists e,
    sample.ReadFinality rawdb.Checkpoint
      (ethdb.mk {[sample.lastCheckpoint := "{"]} false) = Err e
    /\ IsCorrupt e = true.
Proof. eexists. split; reflexivity. Qed.

(** The two variants keep their records under different keys. *)
Example variants_do_not_share_a_record :
  sample.ReadFinality rawdb.Checkpoint
    (sample.WriteLastFinality rawdb.Milestone ethdb.empty 5 255).1
  = Err (Errorf "%w: empty response for %s" (Sentinel ErrNotFound)
           [ArgStr sample.lastCheckpoint]).
Proof. vm_compute. reflexivity. Qed.

(** * Further properties *)

(** ** The two writers *)

Section Writer_properties.
Variable lastCheckpoint : string.
Context `{!JSON rawdb.Finality, !JSON rawdb.LockField}.

Lemma WriteLastFinality_result T db n h :
  let w := rawdb.WriteLastFinality lastCheckpoint T db n h in
  (w.1 = db /\ w.2 ≠ None)
  \/ (exists enc,
        json_Marshal (rawdb.mkFinality n h) = Ok enc
        /\ ethdb.unavailable db = false
        /\ w = (ethdb.mk (<[(rawdb.getKey lastCheckpoint T).2 := enc]> (ethdb.entries db))
                  false, None)).
Proof.
  unfold rawdb.WriteLastFinality, ethdb.Put.
  destruct (rawdb.getKey lastCheckpoint T) as [lastTV key]. unfold rawdb.set. simpl.
  destruct (json_Marshal _) as [enc|err]; [|left; split; [reflexivity | discriminate]].
  destruct (ethdb.unavailable db) eqn:Hav; [left; split; [reflexivity | discriminate]|].
  right. exists enc. repeat split.
Qed.

(** Both readers look at one key only. *)
Lemma ReadFinality_one_key T db1 db2 :
  ethdb.entries db1 !! (rawdb.getKey lastCheckpoint T).2
  = ethdb.entries db2 !! (rawdb.getKey lastCheckpoint T).2 ->
  rawdb.ReadFinality lastCheckpoint T db1 = rawdb.ReadFinality lastCheckpoint T db2.
Proof.
  unfold rawdb.ReadFinality, ethdb.Get.
  destruct (rawdb.getKey lastCheckpoint T) as [lastTV key]. simpl.
  intros ->. reflexivity.
Qed.

Lemma ReadLockField_one_key db1 db2 :
  ethdb.entries db1 !! rawdb.lockFieldKey = ethdb.entries db2 !! rawdb.lockFieldKey ->
  rawdb.ReadLockField db1 = rawdb.ReadLockField db2.
Proof.
  unfold rawdb.ReadLockField, ethdb.Get. intros ->. reflexivity.
Qed.

(** Writing the lock fields leaves every other key as it was. *)
Lemma WriteLockField_other_keys db val block hash ids k :
  k ≠ rawdb.lockFieldKey ->
  ethdb.entries (rawdb.WriteLockField db val block hash ids).1 !! k
  = ethdb.entries db !! k.
Proof.
  intros Hk.
  destruct (WriteLockField_result db val block hash ids) as [[-> _]|(enc & _ & _ & ->)];
    [reflexivity|].
  simpl. apply lookup_insert_ne. congruence.
Qed.

Lemma WriteLastFinality_other_keys T db n h k :
  k ≠ (rawdb.getKey lastCheckpoint T).2 ->
  ethdb.entries (rawdb.WriteLastFinality lastCheckpoint T db n h).1 !! k
  = ethdb.entries db !! k.
Proof.
  intros Hk.
  destruct (WriteLastFinality_result T db n h) as [[-> _]|(enc & _ & _ & ->)];
    [reflexivity|].
  simpl. apply lookup_insert_ne. congruence.
Qed.

(** Writing the same lock fields a second time changes nothing more. *)
Lemma WriteLockField_twice db val block hash ids :
  (rawdb.WriteLockField (rawdb.WriteLockField db val block hash ids).1
     val block hash ids).1
  = (rawdb.WriteLockField db val block hash ids).1.
Proof.
  destruct (WriteLockField_result db val block hash ids)
    as [[Hsame _]|(enc & Henc & Hav & Hw)].
  - rewrite Hsame. exact Hsame.
  - rewrite Hw. simpl.
    unfold rawdb.WriteLockField, ethdb.Put. rewrite Henc. simpl.
    rewrite insert_insert_eq. reflexivity.
Qed.

(** X1: a write of either record that reports an error has left the store
    exactly as it was, and the error tells the cause: when encoding failed
    it wraps the record's own sentinel ([ErrIncorrectFinalityToStore] for
    a finality record, [ErrIncorrectLockFieldToStore] for the lock fields)
    and carries the encoder's error; when the store refused it wraps
    [ErrDBNotResponding] and carries the store's error.  A write that
    meets neither failure reports no error and has put the encoding under
    the record's own key, changing nothing else. *)
Theorem X1_writers_fail_clean (T : rawdb.BlockFinality) (db : ethdb.KeyValueStore)
  (n : uint64) (h : common.Hash) (val : bool) (ids : gset string) :
  let wf := rawdb.WriteLastFinality lastCheckpoint T db n h in
  let wl := rawdb.WriteLockField db val n h ids in
  let key := (rawdb.getKey lastCheckpoint T).2 in
  (forall cause,
      json_Marshal (rawdb.mkFinality n h) = Err cause ->
      exists format args,
        wf = (db, Some (Errorf format (Sentinel ErrIncorrectFinalityToStore) args))
        /\ ArgErr cause ∈ args)
  /\ (forall enc,
        json_Marshal (rawdb.mkFinality n h) = Ok enc ->
        ethdb.unavailable db = true ->
        exists format args refusal,
          wf = (db, Some (Errorf format (Sentinel ErrDBNotResponding) args))
          /\ (ethdb.Put db key enc).2 = Some refusal
          /\ ArgErr refusal ∈ args)
  /\ (forall enc,
        json_Marshal (rawdb.mkFinality n h) = Ok enc ->
        ethdb.unavailable db = false ->
        wf = (ethdb.mk (<[key := enc]> (ethdb.entries db)) false, None))
  /\ (forall cause,
        json_Marshal (rawdb.mkLockField val n h ids) = Err cause ->
        exists format args,
          wl = (db, Some (Errorf format (Sentinel ErrIncorrectLockFieldToStore) args))
          /\ ArgErr cause ∈ args)
  /\ (forall enc,
        json_Marshal (rawdb.mkLockField val n h ids) = Ok enc ->
        ethdb.unavailable db = true ->
        exists format args refusal,
          wl = (db, Some (Errorf format (Sentinel ErrDBNotResponding) args))
          /\ (ethdb.Put db rawdb.lockFieldKey enc).2 = Some refusal
          /\ ArgErr refusal ∈ args)
  /\ (forall enc,
        json_Marshal (rawdb.mkLockField val n h ids) = Ok enc ->
        ethdb.unavailable db = false ->
        wl = (ethdb.mk (<[rawdb.lockFieldKey := enc]> (ethdb.entries db)) false, None))
  /\ (forall e, wf.2 = Some e ->
        wf.1 = db
        /\ errors_Is e ErrIncorrectFinalityToStore || errors_Is e ErrDBNotResponding = true)
  /\ (forall e, wl.2 = Some e ->
        wl.1 = db
        /\ errors_Is e ErrIncorrectLockFieldToStore || errors_Is e ErrDBNotResponding = true)
  /\ (forall k, k ≠ key -> ethdb.entries wf.1 !! k = ethdb.entries db !! k)
  /\ (forall k, k ≠ rawdb.lockFieldKey ->
        ethdb.entries wl.1 !! k = ethdb.entries db !! k)
  /\ (wf.2 = None ->
      exists enc, json_Marshal (rawdb.mkFinality n h) = Ok enc
                  /\ ethdb.entries wf.1 !! key = Some enc)
  /\ (wl.2 = None ->
      exists enc, json_Marshal (rawdb.mkLockField val n h ids) = Ok enc
                  /\ ethdb.entries wl.1 !! rawdb.lockFieldKey = Some enc).
Proof.
  intros wf wl key. subst wf wl key.
  assert (Hcauses :
            (forall cause,
                json_Marshal (rawdb.mkFinality n h) = Err cause ->
                exists format args,
                  rawdb.WriteLastFinality lastCheckpoint T db n h
                  = (db, Some (Errorf format (Sentinel ErrIncorrectFinalityToStore) args))
                  /\ ArgErr cause ∈ args)
            /\ (forall enc,
                  json_Marshal (rawdb.mkFinality n h) = Ok enc ->
                  ethdb.unavailable db = true ->
                  exists format args refusal,
                    rawdb.WriteLastFinality lastCheckpoint T db n h
                    = (db, Some (Errorf format (Sentinel ErrDBNotResponding) args))
                    /\ (ethdb.Put db (rawdb.getKey lastCheckpoint T).2 enc).2 = Some refusal
                    /\ ArgErr refusal ∈ args)
            /\ (forall enc,
                  json_Marshal (rawdb.mkFinality n h) = Ok enc ->
                  ethdb.unavailable db = false ->
                  rawdb.WriteLastFinality lastCheckpoint T db n h
                  = (ethdb.mk (<[(rawdb.getKey lastCheckpoint T).2 := enc]>
                                 (ethdb.entries db)) false, None))).
  { unfold rawdb.WriteLastFinality, ethdb.Put.
    destruct (rawdb.getKey lastCheckpoint T) as [lastTV k]. unfold rawdb.set. simpl.
    split; [|split].
    - intros cause ->. eexists _, _. split; [reflexivity | left].
    - intros enc -> ->. eexists _, _, _. split; [reflexivity|].
      split; [reflexivity | left].
    - intros enc -> ->. reflexivity. }
  destruct Hcauses as (Hf1 & Hf2 & Hf3).
  split; [exact Hf1|]. split; [exact Hf2|]. split; [exact Hf3|].
  split; [|split; [|split]].
  - intros cause Hc. unfold rawdb.WriteLockField. simpl. rewrite Hc.
    eexists _, _. split; [reflexivity | left].
  - intros enc Henc Hav. unfold rawdb.WriteLockField, ethdb.Put. simpl.
    rewrite Henc, Hav. eexists _, _, _. split; [reflexivity|].
    split; [reflexivity | left].
  - intros enc Henc Hav. apply WriteLockField_entries; assumption.
  - split; [|split; [|split; [|split; [|split]]]].
    + unfold rawdb.WriteLastFinality, ethdb.Put.
      destruct (rawdb.getKey lastCheckpoint T) as [lastTV k]. unfold rawdb.set. simpl.
      destruct (json_Marshal (rawdb.mkFinality n h)) as [enc|err]; simpl.
      * destruct (ethdb.unavailable db); simpl; [|discriminate].
        intros e [= <-]. split; reflexivity.
      * intros e [= <-]. split; reflexivity.
    + unfold rawdb.WriteLockField, ethdb.Put. simpl.
      destruct (json_Marshal (rawdb.mkLockField val n h ids)) as [enc|err]; simpl.
      * destruct (ethdb.unavailable db); simpl; [|discriminate].
        intros e [= <-]. split; reflexivity.
      * intros e [= <-]. split; reflexivity.
    + intros k Hk. apply WriteLastFinality_other_keys, Hk.
    + intros k Hk. apply WriteLockField_other_keys, Hk.
    + intros Hnil.
      destruct (WriteLastFinality_result T db n h) as [[_ Herr]|(enc & Henc & _ & Hw)];
        [contradiction|].
      exists enc. split; [exact Henc|]. rewrite Hw. simpl. apply lookup_insert_eq.
    + intros Hnil.
      destruct (WriteLockField_result db val n h ids) as [[_ Herr]|(enc & Henc & _ & Hw)];
        [contradiction|].
      exists enc. split; [exact Henc|]. rewrite Hw. simpl. apply lookup_insert_eq.
Qed.

(** X2: the milestone record and the lock-field record never disturb each
    other: writing a milestone leaves what [ReadLockField] returns
    unchanged, and writing the lock fields leaves what [ReadFinality]
    returns for the milestone unchanged. *)
Theorem X2_milestone_and_lock_records_apart (db : ethdb.KeyValueStore)
  (n : uint64) (h : common.Hash) (val : bool) (ids : gset string) :
  rawdb.ReadLockField
    (rawdb.WriteLastFinality lastCheckpoint rawdb.Milestone db n h).1
  = rawdb.ReadLockField db
  /\ rawdb.ReadFinality lastCheckpoint rawdb.Milestone
       (rawdb.WriteLockField db val n h ids).1
     = rawdb.ReadFinality lastCheckpoint rawdb.Milestone db.
Proof.
  split.
  - apply ReadLockField_one_key, WriteLastFinality_other_keys. discriminate.
  - apply ReadFinality_one_key, WriteLockField_other_keys. discriminate.
Qed.

(** X3: when the checkpoint's key differs from the milestone's, a write
    for one variant leaves what [ReadFinality] returns for the other
    variant unchanged. *)
Theorem X3_variants_apart (T T' : rawdb.BlockFinality) (db : ethdb.KeyValueStore)
  (n : uint64) (h : common.Hash) :
  lastCheckpoint ≠ rawdb.lastMilestone ->
  T ≠ T' ->
  rawdb.ReadFinality lastCheckpoint T'
    (rawdb.WriteLastFinality lastCheckpoint T db n h).1
  = rawdb.ReadFinality lastCheckpoint T' db.
Proof.
  intros Hkeys Hvar.
  apply ReadFinality_one_key, WriteLastFinality_other_keys.
  destruct T, T'; simpl; congruence.
Qed.

(** X4: with a serialization that round-trips the lock fields
    [(val, block, hash, ids)], [WriteLockField] on an available store
    reports no error, and [ReadLockField] after a write that reported no
    error returns exactly [(val, block, hash, ids)], whatever the store
    held before. *)
Theorem X4_lock_field_roundtrip (db : ethdb.KeyValueStore) (val : bool)
  (block : uint64) (hash : common.Hash) (ids : gset string) :
  roundtrips (rawdb.mkLockField val block hash ids) ->
  (ethdb.unavailable db = false ->
   (rawdb.WriteLockField db val block hash ids).2 = None)
  /\ ((rawdb.WriteLockField db val block hash ids).2 = None ->
      rawdb.ReadLockField (rawdb.WriteLockField db val block hash ids).1
      = Ok (val, block, hash, ids)).
Proof. apply WriteLockField_readback. Qed.

(** X5: [ReadLockField] returns the decoded fields exactly when the store
    holds, under the lock-field key, a value that is not empty and
    decodes.  Without a value it fails with the store's own error wrapped;
    on an empty value and on a value that does not decode it fails with
    the same sentinel, [ErrIncorrectLockField], so that the two cannot be
    told apart by class (unlike in [ReadFinality]). *)
Theorem X5_ReadLockField_outcomes (db : ethdb.KeyValueStore) :
  (ethdb.entries db !! rawdb.lockFieldKey = None ->
   exists e, rawdb.ReadLockField db = Err e
             /\ errors_Is e ErrNotFound = true
             /\ errors_Is e ErrIncorrectLockField = false)
  /\ (ethdb.entries db !! rawdb.lockFieldKey = Some ("" : bytes) ->
      exists e, rawdb.ReadLockField db = Err e
                /\ errors_Is e ErrIncorrectLockField = true)
  /\ (forall (data : bytes) (cause : error),
         ethdb.entries db !! rawdb.lockFieldKey = Some data -> data ≠ "" ->
         json_Unmarshal data = Err cause ->
         exists format args,
           rawdb.ReadLockField db
           = Err (Errorf format (Sentinel ErrIncorrectLockField) args)
           /\ ArgErr cause ∈ args /\ ArgBytes data ∈ args)
  /\ (forall (data : bytes) (l : rawdb.LockField),
         ethdb.entries db !! rawdb.lockFieldKey = Some data -> data ≠ "" ->
         json_Unmarshal data = Ok l ->
         rawdb.ReadLockField db
         = Ok (rawdb.Val l, rawdb.LockBlock l, rawdb.LockHash l, rawdb.IdList l))
  /\ (forall r, rawdb.ReadLockField db = Ok r ->
        exists (data : bytes) (l : rawdb.LockField),
          ethdb.entries db !! rawdb.lockFieldKey = Some data /\ data ≠ ""
          /\ json_Unmarshal data = Ok l).
Proof.
  unfold rawdb.ReadLockField, ethdb.Get.
  split; [|split; [|split; [|split]]].
  - intros ->. eexists. repeat split.
  - intros ->. simpl. eexists. repeat split.
  - intros data cause -> Hne Hdec.
    destruct (String.length data =? 0)%nat eqn:Hlen.
    + apply string_length_zero in Hlen. contradiction.
    + rewrite Hdec. eexists _, _. split; [reflexivity|].
      split; [left | right; left].
  - intros data l -> Hne Hdec.
    destruct (String.length data =? 0)%nat eqn:Hlen.
    + apply string_length_zero in Hlen. contradiction.
    + rewrite Hdec. reflexivity.
  - intros r.
    destruct (ethdb.entries db !! rawdb.lockFieldKey) as [data|]; [|discriminate].
    destruct (String.length data =? 0)%nat eqn:Hlen; [discriminate|].
    destruct (json_Unmarshal data) as [l|err] eqn:Hdec; [|discriminate].
    intros _. exists data, l. split; [reflexivity|]. split; [|exact Hdec].
    intros ->. discriminate Hlen.
Qed.
End Writer_properties.

(** The milestone and checkpoint records under the sample keys. *)
Lemma X3_variants_apart_witness :
  sample.ReadFinality rawdb.Checkpoint
    (sample.WriteLastFinality rawdb.Milestone ethdb.empty 5 255).1
  = sample.ReadFinality rawdb.Checkpoint ethdb.empty.
Proof.
  apply (X3_variants_apart sample.lastCheckpoint (JSON0 := canonical_json.finality_json)
           rawdb.Milestone rawdb.Checkpoint ethdb.empty 5 255).
  - discriminate.
  - discriminate.
Defined.

(** The reference serialization round-trips the lock fields of the sample
    guard. *)
Lemma sample_lock_fields_roundtrip :
  roundtrips (JSON0 := canonical_json.lock_json) (lock_fields sample.locked_at_100).
Proof.
  eexists. split; [reflexivity|]. split; [discriminate|]. vm_compute. reflexivity.
Qed.

Lemma X4_lock_field_roundtrip_witness :
  sample.ReadLockField
    (rawdb.WriteLockField (JSON0 := canonical_json.lock_json) ethdb.empty
       true 100 7 {["m1"]}).1
  = Ok (true, 100%N, 7%N, {["m1"]}).
Proof.
  pose proof (X4_lock_field_roundtrip (JSON1 := canonical_json.lock_json)
                ethdb.empty true 100 7 {["m1"]} sample_lock_fields_roundtrip)
    as [Hwrite Hread].
  apply Hread, Hwrite. reflexivity.
Defined.

(** ** The guard and its store *)

(** Close a goal about a state of the form [writeLockField y] with the
    fact at hand about every such state. *)
Ltac by_write :=
  match goal with
  | Hwrite : forall x, _ |- context [milestone.writeLockField ?y] => exact (Hwrite y)
  end.

Section Guard_store_properties.
Variable lastCheckpoint : string.
Context `{!JSON rawdb.Finality, !JSON rawdb.LockField}.

(** The guard's own write touches the store only. *)
Lemma writeLockField_fields (m : milestone.t) :
  lock_fields (milestone.writeLockField m) = lock_fields m
  /\ finality.Number (milestone.finality (milestone.writeLockField m))
     = finality.Number (milestone.finality m)
  /\ finality.Hash (milestone.finality (milestone.writeLockField m))
     = finality.Hash (milestone.finality m)
  /\ finality.doExist (milestone.finality (milestone.writeLockField m))
     = finality.doExist (milestone.finality m)
  /\ milestone.db (milestone.writeLockField m) = milestone.persisted m.
Proof. rewrite writeLockField_eq. repeat split. Qed.

(** After the guard's own write on an available store, the store holds
    the guard's lock fields. *)
Lemma writeLockField_readback (m : milestone.t) :
  ethdb.unavailable (milestone.db m) = false ->
  roundtrips (lock_fields m) ->
  rawdb.ReadLockField (milestone.db (milestone.writeLockField m))
  = Ok (milestone.Locked m, milestone.LockedSprintNumber m,
        milestone.LockedSprintHash m, milestone.LockedMilestoneIDs m).
Proof.
  intros Hav Hrt.
  rewrite (proj2 (proj2 (proj2 (proj2 (writeLockField_fields m))))).
  unfold milestone.persisted.
  destruct (WriteLockField_readback (milestone.db m) _ _ _ _ Hrt) as [Hwrite Hread].
  apply Hread, Hwrite, Hav.
Qed.

(** Writing the guard's lock fields twice is writing them once. *)
Lemma writeLockField_twice (m : milestone.t) :
  milestone.writeLockField (milestone.writeLockField m) = milestone.writeLockField m.
Proof.
  rewrite !writeLockField_eq. unfold milestone.persisted. simpl.
  unfold milestone.set_db, milestone.set_finality. simpl.
  f_equal. f_equal. apply WriteLockField_twice.
Qed.

(** X6: on an available store and with a serialization that round-trips
    the resulting lock fields, the three operations that persist leave the
    store in agreement with the memory: after [UnlockMutex], after
    [RemoveMilestoneID], and after an [UnlockSprint] that reaches the
    locked number, [ReadLockField] on the guard's store returns the
    guard's [Locked], [LockedSprintNumber], [LockedSprintHash] and
    [LockedMilestoneIDs]. *)
Theorem X6_store_agrees_with_memory (m : milestone.t) (doLock : bool)
  (id : string) (h : common.Hash) (endBlockNum : uint64) :
  ethdb.unavailable (milestone.db m) = false ->
  let stored m' :=
    roundtrips (lock_fields m') ->
    rawdb.ReadLockField (milestone.db m')
    = Ok (milestone.Locked m', milestone.LockedSprintNumber m',
          milestone.LockedSprintHash m', milestone.LockedMilestoneIDs m') in
  stored (milestone.UnlockMutex doLock id h m)
  /\ stored (milestone.RemoveMilestoneID id m)
  /\ ((milestone.LockedSprintNumber m <= endBlockNum)%N ->
      stored (milestone.UnlockSprint endBlockNum m)).
Proof.
  intros Hav stored. subst stored. cbv beta.
  assert (Hgen : forall x,
             ethdb.unavailable (milestone.db x) = false ->
             roundtrips (lock_fields (milestone.writeLockField x)) ->
             rawdb.ReadLockField (milestone.db (milestone.writeLockField x))
             = Ok (milestone.Locked (milestone.writeLockField x),
                   milestone.LockedSprintNumber (milestone.writeLockField x),
                   milestone.LockedSprintHash (milestone.writeLockField x),
                   milestone.LockedMilestoneIDs (milestone.writeLockField x))).
  { intros x Hx Hrt.
    rewrite (proj1 (writeLockField_fields x)) in Hrt.
    rewrite (writeLockField_readback x Hx Hrt).
    rewrite writeLockField_eq. reflexivity. }
  split; [|split].
  - unfold milestone.UnlockMutex. apply Hgen.
    destruct doLock; exact Hav.
  - unfold milestone.RemoveMilestoneID. apply Hgen.
    destruct (_ =? _)%nat; exact Hav.
  - intros Hle. unfold milestone.UnlockSprint.
    rewrite (proj2 (N.ltb_ge _ _) Hle). apply Hgen. exact Hav.
Qed.

(** X7: [LockMutex] never persists the number it adopts.  It leaves the
    store untouched, except when it replaces a lock held at a lower
    number: then the store receives the cleared old lock (flag off, old
    number, old hash, no identifier) while the memory moves on to the new
    number, so that a read of the store returns the old number. *)
Theorem X7_LockMutex_not_persisted (endBlockNum : uint64) (m : milestone.t) :
  let r := milestone.LockMutex endBlockNum m in
  let replaces :=
    negb (milestone.doExist m && (endBlockNum <=? milestone.Number m)%N)
    && milestone.Locked m && (milestone.LockedSprintNumber m <? endBlockNum)%N in
  (replaces = false -> milestone.db r.2 = milestone.db m)
  /\ (replaces = true ->
      r.1 = true
      /\ milestone.LockedSprintNumber r.2 = endBlockNum
      /\ (milestone.LockedSprintNumber m < endBlockNum)%N
      /\ milestone.db r.2 =
         (rawdb.WriteLockField (milestone.db m) false (milestone.LockedSprintNumber m)
            (milestone.LockedSprintHash m) ∅).1
      /\ (ethdb.unavailable (milestone.db m) = false ->
          roundtrips (rawdb.mkLockField false (milestone.LockedSprintNumber m)
                        (milestone.LockedSprintHash m) ∅) ->
          rawdb.ReadLockField (milestone.db r.2)
          = Ok (false, milestone.LockedSprintNumber m,
                milestone.LockedSprintHash m, ∅))).
Proof.
  intros r replaces. subst r replaces. unfold milestone.LockMutex.
  destruct (milestone.doExist m && (endBlockNum <=? milestone.Number m)%N); simpl;
    [split; [reflexivity | discriminate]|].
  destruct (milestone.Locked m) eqn:Hlocked; simpl;
    [|split; [reflexivity | discriminate]].
  destruct (N.eqb_spec endBlockNum (milestone.LockedSprintNumber m)) as [Heq|Hne]; simpl.
  { rewrite <- Heq, N.ltb_irrefl. split; [reflexivity | discriminate]. }
  destruct (N.ltb_spec endBlockNum (milestone.LockedSprintNumber m)) as [Hlt|Hge]; simpl.
  { rewrite (proj2 (N.ltb_ge _ _) (N.lt_le_incl _ _ Hlt)).
    split; [reflexivity | discriminate]. }
  assert (Hnewer : (milestone.LockedSprintNumber m < endBlockNum)%N) by lia.
  rewrite (proj2 (N.ltb_lt _ _) Hnewer).
  split; [discriminate|]. intros _.
  rewrite (UnlockSprint_reached _ _ (N.le_refl _)). simpl.
  split; [reflexivity|]. split; [reflexivity|]. split; [exact Hnewer|].
  split; [reflexivity|].
  intros Hav Hrt. unfold milestone.db. simpl. unfold milestone.persisted. simpl.
  destruct (WriteLockField_readback (milestone.db m) _ _ _ _ Hrt) as [Hwrite Hread].
  apply Hread, Hwrite, Hav.
Qed.

(** X10: the four operations of the sprint-locking protocol never touch
    the finalized record: the guard's [Number], [Hash] and [doExist] are
    as before, and so is what [ReadFinality] returns for the milestone on
    the guard's store. *)
Theorem X10_lock_operations_keep_finality (o : milestone.op) (m : milestone.t) :
  match o with
  | milestone.OpProcess _ _ => True
  | _ =>
      let m' := milestone.run lastCheckpoint o m in
      finality.Number (milestone.finality m') = finality.Number (milestone.finality m)
      /\ finality.Hash (milestone.finality m') = finality.Hash (milestone.finality m)
      /\ finality.doExist (milestone.finality m') = finality.doExist (milestone.finality m)
      /\ rawdb.ReadFinality lastCheckpoint rawdb.Milestone (milestone.db m')
         = rawdb.ReadFinality lastCheckpoint rawdb.Milestone (milestone.db m)
  end.
Proof.
  assert (Hwrite : forall x,
             finality.Number (milestone.finality (milestone.writeLockField x))
             = finality.Number (milestone.finality x)
             /\ finality.Hash (milestone.finality (milestone.writeLockField x))
                = finality.Hash (milestone.finality x)
             /\ finality.doExist (milestone.finality (milestone.writeLockField x))
                = finality.doExist (milestone.finality x)
             /\ rawdb.ReadFinality lastCheckpoint rawdb.Milestone
                  (milestone.db (milestone.writeLockField x))
                = rawdb.ReadFinality lastCheckpoint rawdb.Milestone (milestone.db x)).
  { intros x. destruct (writeLockField_fields x) as (_ & Hn & Hh & He & Hdb).
    repeat (split; [assumption|]).
    rewrite Hdb. unfold milestone.persisted.
    apply ReadFinality_one_key, WriteLockField_other_keys. discriminate. }
  assert (Hsprint : forall e x,
             finality.Number (milestone.finality (milestone.UnlockSprint e x))
             = finality.Number (milestone.finality x)
             /\ finality.Hash (milestone.finality (milestone.UnlockSprint e x))
                = finality.Hash (milestone.finality x)
             /\ finality.doExist (milestone.finality (milestone.UnlockSprint e x))
                = finality.doExist (milestone.finality x)
             /\ rawdb.ReadFinality lastCheckpoint rawdb.Milestone
                  (milestone.db (milestone.UnlockSprint e x))
                = rawdb.ReadFinality lastCheckpoint rawdb.Milestone (milestone.db x)).
  { intros e x. unfold milestone.UnlockSprint.
    destruct (_ <? _)%N; [repeat split|]. by_write. }
  destruct o as [n|doLock id h|n|id|b h]; simpl; [| | | |exact I].
  - unfold milestone.LockMutex.
    destruct (_ && _); [repeat split|].
    destruct (_ && _); [|repeat split].
    destruct (_ <? _)%N; [repeat split|]. simpl. apply Hsprint.
  - unfold milestone.UnlockMutex.
    destruct doLock; by_write.
  - apply Hsprint.
  - unfold milestone.RemoveMilestoneID.
    destruct (_ =? _)%nat; by_write.
Qed.

(** X11: two [UnlockSprint] calls in a row amount to one call with the
    larger argument, store included; so [UnlockSprint] is idempotent and
    the order of two calls does not matter. *)
Theorem X11_UnlockSprint_composes (e1 e2 : uint64) (m : milestone.t) :
  milestone.UnlockSprint e2 (milestone.UnlockSprint e1 m)
  = milestone.UnlockSprint (N.max e1 e2) m
  /\ milestone.UnlockSprint e1 (milestone.UnlockSprint e1 m) = milestone.UnlockSprint e1 m
  /\ milestone.UnlockSprint e2 (milestone.UnlockSprint e1 m)
     = milestone.UnlockSprint e1 (milestone.UnlockSprint e2 m).
Proof.
  assert (Hcompose : forall a b,
             milestone.UnlockSprint b (milestone.UnlockSprint a m)
             = milestone.UnlockSprint (N.max a b) m).
  { intros a b.
    destruct (N.lt_ge_cases a (milestone.LockedSprintNumber m)) as [Ha|Ha].
    - rewrite (UnlockSprint_below a m Ha).
      destruct (N.lt_ge_cases b (milestone.LockedSprintNumber m)) as [Hb|Hb].
      + rewrite (UnlockSprint_below b m Hb).
        rewrite (UnlockSprint_below (N.max a b) m) by lia. reflexivity.
      + unfold milestone.UnlockSprint.
        rewrite (proj2 (N.ltb_ge _ _) Hb).
        rewrite (proj2 (N.ltb_ge (N.max a b) _)) by lia. reflexivity.
    - assert (Hmax : (milestone.LockedSprintNumber m <= N.max a b)%N) by lia.
      unfold milestone.UnlockSprint at 2 3.
      rewrite (proj2 (N.ltb_ge _ _) Ha), (proj2 (N.ltb_ge _ _) Hmax).
      set (x := milestone.purgeMilestoneIDsList (milestone.set_Locked false m)).
      unfold milestone.UnlockSprint.
      assert (Hn : milestone.LockedSprintNumber (milestone.writeLockField x)
                   = milestone.LockedSprintNumber m)
        by (rewrite writeLockField_eq; reflexivity).
      rewrite Hn.
      destruct (N.ltb_spec b (milestone.LockedSprintNumber m)) as [Hb|Hb];
        [reflexivity|].
      replace (milestone.purgeMilestoneIDsList
                 (milestone.set_Locked false (milestone.writeLockField x)))
        with (milestone.writeLockField x)
        by (rewrite writeLockField_eq; reflexivity).
      apply writeLockField_twice. }
  split; [apply Hcompose|]. split.
  - rewrite Hcompose, N.max_id. reflexivity.
  - rewrite !Hcompose, N.max_comm. reflexivity.
Qed.

(** The guard's own write keeps the store available or unavailable as it
    was. *)
Lemma writeLockField_available (x : milestone.t) :
  ethdb.unavailable (milestone.db (milestone.writeLockField x))
  = ethdb.unavailable (milestone.db x).
Proof.
  rewrite writeLockField_eq.
  change (ethdb.unavailable (milestone.persisted x)
          = ethdb.unavailable (milestone.db x)).
  unfold milestone.persisted.
  destruct (WriteLockField_result (milestone.db x) (milestone.Locked x)
              (milestone.LockedSprintNumber x) (milestone.LockedSprintHash x)
              (milestone.LockedMilestoneIDs x)) as [[Hsame _]|(enc & _ & Hav & Hw)].
  - rewrite Hsame. reflexivity.
  - rewrite Hw. simpl. symmetry. exact Hav.
Qed.

(** What [RemoveMilestoneID] keeps. *)
Lemma RemoveMilestoneID_frame (id : string) (x : milestone.t) :
  let x' := milestone.RemoveMilestoneID id x in
  milestone.LockedSprintNumber x' = milestone.LockedSprintNumber x
  /\ milestone.LockedSprintHash x' = milestone.LockedSprintHash x
  /\ finality.Number (milestone.finality x') = finality.Number (milestone.finality x)
  /\ finality.Hash (milestone.finality x') = finality.Hash (milestone.finality x)
  /\ finality.doExist (milestone.finality x') = finality.doExist (milestone.finality x)
  /\ ethdb.unavailable (milestone.db x') = ethdb.unavailable (milestone.db x)
  /\ (ethdb.unavailable (milestone.db x) = false ->
      roundtrips (lock_fields x') ->
      rawdb.ReadLockField (milestone.db x')
      = Ok (milestone.Locked x', milestone.LockedSprintNumber x',
            milestone.LockedSprintHash x', milestone.LockedMilestoneIDs x')).
Proof.
  intros x'. subst x'. unfold milestone.RemoveMilestoneID.
  match goal with
  | |- context [milestone.writeLockField ?y] =>
      pose proof (writeLockField_fields y) as (Hf & Hn & Hh & He & _);
      pose proof (writeLockField_available y) as Hav;
      pose proof (writeLockField_readback y) as Hread;
      assert (Hy : milestone.LockedSprintNumber y = milestone.LockedSprintNumber x
                   /\ milestone.LockedSprintHash y = milestone.LockedSprintHash x
                   /\ milestone.finality y = milestone.finality x)
        by (destruct (_ =? _)%nat; repeat split);
      set (w := milestone.writeLockField y) in *
  end.
  destruct Hy as (Hyn & Hyh & Hyf).
  assert (Hwn : milestone.LockedSprintNumber w = milestone.LockedSprintNumber x)
    by (rewrite <- Hyn; exact (f_equal rawdb.LockBlock Hf)).
  assert (Hwh : milestone.LockedSprintHash w = milestone.LockedSprintHash x)
    by (rewrite <- Hyh; exact (f_equal rawdb.LockHash Hf)).
  split; [exact Hwn|]. split; [exact Hwh|].
  rewrite Hn, Hh, He, Hyf.
  split; [reflexivity|]. split; [reflexivity|]. split; [reflexivity|].
  unfold milestone.db in *. rewrite Hyf in Hav, Hread.
  split; [exact Hav|].
  intros Havail Hrt. rewrite Hf in Hrt. rewrite (Hread Havail Hrt).
  f_equal.
  pose proof (f_equal rawdb.Val Hf) as HL.
  pose proof (f_equal rawdb.IdList Hf) as HI.
  pose proof (f_equal rawdb.LockBlock Hf) as HB.
  pose proof (f_equal rawdb.LockHash Hf) as HH.
  simpl in HL, HI, HB, HH. rewrite HL, HI, HB, HH. reflexivity.
Qed.

(** X15: a withdrawal delivered twice has the effect of one delivery: a
    second [RemoveMilestoneID] for the same identifier leaves [Locked],
    the locked number and hash, the identifier set and the finalized
    record as the first call left them, and, on an available store with a
    serialization that round-trips these lock fields, [ReadLockField]
    returns the same fields after either call. *)
Theorem X15_duplicate_withdrawal (id : string) (m : milestone.t) :
  let m1 := milestone.RemoveMilestoneID id m in
  let m2 := milestone.RemoveMilestoneID id m1 in
  lock_fields m2 = lock_fields m1
  /\ finality.Number (milestone.finality m2) = finality.Number (milestone.finality m1)
  /\ finality.Hash (milestone.finality m2) = finality.Hash (milestone.finality m1)
  /\ finality.doExist (milestone.finality m2) = finality.doExist (milestone.finality m1)
  /\ (ethdb.unavailable (milestone.db m) = false ->
      roundtrips (lock_fields m1) ->
      rawdb.ReadLockField (milestone.db m1)
      = Ok (milestone.Locked m1, milestone.LockedSprintNumber m1,
            milestone.LockedSprintHash m1, milestone.LockedMilestoneIDs m1)
      /\ rawdb.ReadLockField (milestone.db m2) = rawdb.ReadLockField (milestone.db m1)).
Proof.
  intros m1 m2.
  destruct (RemoveMilestoneID_fields id m) as [Hids1 Hlocked1].
  destruct (RemoveMilestoneID_fields id m1) as [Hids2 Hlocked2].
  destruct (RemoveMilestoneID_frame id m) as (_ & _ & _ & _ & _ & Hav1 & Hread1).
  destruct (RemoveMilestoneID_frame id m1) as (Hn2 & Hh2 & Hfn & Hfh & Hfe & _ & Hread2).
  cbv zeta in *. fold m1 in Hids1, Hlocked1, Hav1, Hread1.
  fold m1 m2 in Hids2, Hlocked2, Hn2, Hh2, Hfn, Hfh, Hfe, Hread2.
  assert (Hagain : milestone.LockedMilestoneIDs m1 ∖ {[id]}
                   = milestone.LockedMilestoneIDs m1).
  { rewrite Hids1, difference_difference_l_L, union_idemp_L. reflexivity. }
  rewrite Hagain in Hids2, Hlocked2.
  assert (Hl : milestone.Locked m2 = milestone.Locked m1).
  { rewrite Hlocked2.
    destruct (decide (milestone.LockedMilestoneIDs m1 = ∅)) as [Hempty|Hne];
      [|reflexivity].
    rewrite Hlocked1, <- Hids1.
    rewrite decide_True by exact Hempty. reflexivity. }
  assert (Hfields : lock_fields m2 = lock_fields m1).
  { unfold lock_fields. rewrite Hl, Hn2, Hh2, Hids2. reflexivity. }
  split; [exact Hfields|]. split; [exact Hfn|]. split; [exact Hfh|]. split; [exact Hfe|].
  intros Hav Hrt.
  rewrite (Hread1 Hav Hrt). split; [reflexivity|].
  rewrite Hread2.
  - rewrite Hl, Hn2, Hh2, Hids2. reflexivity.
  - rewrite Hav1. exact Hav.
  - rewrite Hfields. exact Hrt.
Qed.
End Guard_store_properties.

(** The operations on the sample guard leave its store readable. *)
Lemma X6_store_agrees_with_memory_witness :
  sample.ReadLockField
    (milestone.db (sample.UnlockMutex true "m2" 9 sample.locked_at_100))
  = Ok (true, 100%N, 9%N, {["m1"; "m2"]}).
Proof.
  refine (proj1 (X6_store_agrees_with_memory (JSON1 := canonical_json.lock_json)
                   sample.locked_at_100 true "m2" 9 150 eq_refl) _).
  eexists. split; [reflexivity|]. split; [discriminate|]. vm_compute. reflexivity.
Defined.

(** Replacing the lock at 100 by a candidate at 120 leaves the number 100
    in the store. *)
Example LockMutex_store_keeps_old_number :
  milestone.LockedSprintNumber (sample.LockMutex 120 sample.locked_at_100).2 = 120%N
  /\ sample.ReadLockField (milestone.db (sample.LockMutex 120 sample.locked_at_100).2)
     = Ok (false, 100%N, 7%N, ∅).
Proof. split; [reflexivity | vm_compute; reflexivity]. Qed.

(** ** More on the protocol *)

Section Protocol_more.
Variable lastCheckpoint : string.
Context `{!JSON rawdb.Finality, !JSON rawdb.LockField}.

(** [lock_consistent], spelled out. *)
Lemma lock_consistent_iff (m : milestone.t) :
  lock_consistent m <->
  (milestone.Locked m = true <-> milestone.LockedMilestoneIDs m ≠ ∅).
Proof.
  unfold lock_consistent.
  destruct (decide (milestone.LockedMilestoneIDs m = ∅)) as [Hempty|Hne].
  - rewrite bool_decide_eq_true_2 by exact Hempty. simpl. split.
    + intros ->. split; [discriminate | contradiction].
    + intros [Hlocked _]. destruct (milestone.Locked m); [|reflexivity].
      exfalso. apply Hlocked; [reflexivity | exact Hempty].
  - rewrite bool_decide_eq_false_2 by exact Hne. simpl. split.
    + intros ->. split; [intros _; exact Hne | reflexivity].
    + intros [_ Hlocked]. apply Hlocked, Hne.
Qed.

Lemma lock_consistent_cleared (m : milestone.t) :
  milestone.Locked m = false -> milestone.LockedMilestoneIDs m = ∅ ->
  lock_consistent m.
Proof.
  unfold lock_consistent. intros -> ->.
  rewrite bool_decide_eq_true_2 by reflexivity. reflexivity.
Qed.

Lemma lock_consistent_run (o : milestone.op) (m : milestone.t) :
  lock_consistent m -> lock_consistent (milestone.run lastCheckpoint o m).
Proof.
  intros Hc.
  assert (Hsprint : forall e x, lock_consistent x ->
                               lock_consistent (milestone.UnlockSprint e x)).
  { intros e x Hx.
    destruct (N.lt_ge_cases e (milestone.LockedSprintNumber x)) as [Hlt|Hge].
    - rewrite (UnlockSprint_below _ _ Hlt). exact Hx.
    - rewrite (UnlockSprint_reached _ _ Hge).
      apply lock_consistent_cleared; reflexivity. }
  destruct o as [n|doLock id h|n|id|b h]; simpl.
  - unfold milestone.LockMutex.
    destruct (_ && _); [exact Hc|].
    destruct (_ && _); [|exact Hc].
    destruct (_ <? _)%N; [exact Hc|]. simpl.
    rewrite (UnlockSprint_reached _ _ (N.le_refl _)).
    apply lock_consistent_cleared; reflexivity.
  - unfold milestone.UnlockMutex. rewrite writeLockField_eq.
    destruct doLock.
    + unfold lock_consistent. simpl. rewrite orb_true_r.
      rewrite bool_decide_eq_false_2; [reflexivity|].
      intros Hempty.
      apply (not_elem_of_empty (C:=gset string) id). rewrite <- Hempty.
      apply elem_of_union_l, elem_of_singleton. reflexivity.
    + unfold lock_consistent. simpl. rewrite orb_false_r. exact Hc.
  - apply Hsprint, Hc.
  - unfold lock_consistent.
    destruct (RemoveMilestoneID_fields id m) as [-> ->].
    destruct (decide _) as [Hempty|Hne].
    + rewrite bool_decide_eq_true_2 by exact Hempty. reflexivity.
    + rewrite bool_decide_eq_false_2 by exact Hne. simpl.
      apply lock_consistent_iff in Hc. apply Hc.
      intros Hall. apply Hne. rewrite Hall.
      apply difference_disjoint_L, disjoint_empty_l.
  - unfold milestone.Process. destruct (_ =? _)%N; [exact Hc|].
    apply Hsprint. exact Hc.
Qed.

(** X8: "[Locked] is set exactly when [LockedMilestoneIDs] is not empty"
    is an invariant of the guard: every operation, and so every sequence
    of operations, keeps it.  In particular a guard that started
    consistent is never [Locked] with an empty identifier set. *)
Theorem X8_locked_iff_ids (m : milestone.t) (ops : list milestone.op) :
  lock_consistent m ->
  let m' := foldl (fun s o => milestone.run lastCheckpoint o s) m ops in
  lock_consistent m'
  /\ (milestone.Locked m' = true <-> milestone.LockedMilestoneIDs m' ≠ ∅).
Proof.
  intros Hc m'.
  assert (Hc' : lock_consistent m').
  { subst m'. revert m Hc.
    induction ops as [|o ops IH]; intros m Hc; simpl; [exact Hc|].
    apply IH, lock_consistent_run, Hc. }
  split; [exact Hc' | apply lock_consistent_iff, Hc'].
Qed.

(** X9: the only operation that sets [Locked] is a confirming
    [UnlockMutex]: if the guard is [Locked] after an operation, it was
    [Locked] before it or the operation is [UnlockMutex] with its flag
    on.  [LockMutex] itself never locks. *)
Theorem X9_only_confirmation_locks (o : milestone.op) (m : milestone.t) :
  milestone.Locked (milestone.run lastCheckpoint o m) = true ->
  milestone.Locked m = true
  \/ exists id h, o = milestone.OpUnlockMutex true id h.
Proof.
  assert (Hsprint : forall e x,
             milestone.Locked (milestone.UnlockSprint e x) = true ->
             milestone.Locked x = true).
  { intros e x.
    destruct (N.lt_ge_cases e (milestone.LockedSprintNumber x)) as [Hlt|Hge].
    - rewrite (UnlockSprint_below _ _ Hlt). auto.
    - rewrite (UnlockSprint_reached _ _ Hge). discriminate. }
  destruct o as [n|doLock id h|n|id|b h]; simpl.
  - unfold milestone.LockMutex.
    destruct (_ && _); [auto|].
    destruct (_ && _); [|auto].
    destruct (_ <? _)%N; [auto|]. discriminate.
  - destruct doLock; [eauto|].
    unfold milestone.UnlockMutex. rewrite writeLockField_eq. simpl.
    rewrite orb_false_r. auto.
  - intros Hl. left. exact (Hsprint _ _ Hl).
  - destruct (RemoveMilestoneID_fields id m) as [_ ->].
    destruct (decide _); [discriminate | auto].
  - unfold milestone.Process. destruct (_ =? _)%N; [auto|].
    intros Hl. left. exact (Hsprint _ _ Hl).
Qed.

(** X12: [GetMilestoneIDsList] lists every contributing identifier once
    and nothing else.  After a confirming [UnlockMutex] for [id] the list
    holds [id] and what it held before; after [RemoveMilestoneID id] it
    holds what it held before except [id]; after an [UnlockSprint] that
    reaches the locked number it is empty. *)
Theorem X12_GetMilestoneIDsList_spec (id : string) (h : common.Hash)
  (endBlockNum : uint64) (m : milestone.t) :
  NoDup (milestone.GetMilestoneIDsList m)
  /\ (forall x, x ∈ milestone.GetMilestoneIDsList m <-> x ∈ milestone.LockedMilestoneIDs m)
  /\ (forall x, x ∈ milestone.GetMilestoneIDsList (milestone.UnlockMutex true id h m)
                <-> x = id \/ x ∈ milestone.GetMilestoneIDsList m)
  /\ (forall x, x ∈ milestone.GetMilestoneIDsList (milestone.RemoveMilestoneID id m)
                <-> x ≠ id /\ x ∈ milestone.GetMilestoneIDsList m)
  /\ ((milestone.LockedSprintNumber m <= endBlockNum)%N ->
      milestone.GetMilestoneIDsList (milestone.UnlockSprint endBlockNum m) = []).
Proof.
  unfold milestone.GetMilestoneIDsList.
  split; [apply NoDup_elements|]. split; [intros x; apply elem_of_elements|].
  split; [|split].
  - intros x. rewrite !elem_of_elements.
    unfold milestone.UnlockMutex. rewrite writeLockField_eq. simpl.
    rewrite elem_of_union, elem_of_singleton. reflexivity.
  - intros x. rewrite !elem_of_elements.
    rewrite (proj1 (RemoveMilestoneID_fields id m)).
    rewrite elem_of_difference, elem_of_singleton. tauto.
  - intros Hle. rewrite (UnlockSprint_reached _ _ Hle). simpl.
    apply elements_empty.
Qed.

(** X13: withdrawing a proposal right after it confirmed undoes its
    membership but not its hash: after [UnlockMutex true id h] followed by
    [RemoveMilestoneID id] the identifier set is the old one without [id],
    the guard is [Locked] exactly when that set is not empty, the locked
    number is unchanged, and the locked hash stays [h]. *)
Theorem X13_withdraw_after_confirm (id : string) (h : common.Hash) (m : milestone.t) :
  let m' := milestone.RemoveMilestoneID id (milestone.UnlockMutex true id h m) in
  milestone.LockedMilestoneIDs m' = milestone.LockedMilestoneIDs m ∖ {[id]}
  /\ milestone.Locked m'
     = negb (bool_decide (milestone.LockedMilestoneIDs m ∖ {[id]} = ∅))
  /\ milestone.LockedSprintNumber m' = milestone.LockedSprintNumber m
  /\ milestone.LockedSprintHash m' = h.
Proof.
  intros m'. subst m'.
  set (m1 := milestone.UnlockMutex true id h m).
  assert (H1 : milestone.LockedMilestoneIDs m1 = {[id]} ∪ milestone.LockedMilestoneIDs m
               /\ milestone.Locked m1 = true
               /\ milestone.LockedSprintNumber m1 = milestone.LockedSprintNumber m
               /\ milestone.LockedSprintHash m1 = h).
  { subst m1. unfold milestone.UnlockMutex. rewrite writeLockField_eq. simpl.
    rewrite orb_true_r. repeat split. }
  destruct H1 as (Hids & Hlocked & Hn & Hh).
  assert (Hdiff : milestone.LockedMilestoneIDs m1 ∖ {[id]}
                  = milestone.LockedMilestoneIDs m ∖ {[id]}).
  { rewrite Hids. apply leibniz_equiv. intros x.
    rewrite !elem_of_difference, elem_of_union, elem_of_singleton. tauto. }
  destruct (RemoveMilestoneID_fields id m1) as [Hids' Hlocked'].
  cbv zeta in Hids', Hlocked'.
  rewrite Hdiff in Hids', Hlocked'. rewrite Hlocked in Hlocked'.
  rewrite Hids', Hlocked'.
  split; [reflexivity|]. split.
  - destruct (decide _) as [Hempty|Hne].
    + rewrite bool_decide_eq_true_2 by exact Hempty. reflexivity.
    + rewrite bool_decide_eq_false_2 by exact Hne. reflexivity.
  - unfold milestone.RemoveMilestoneID. rewrite writeLockField_eq.
    destruct (_ =? _)%nat; simpl; split; assumption.
Qed.
End Protocol_more.

(** A round on the fresh guard: lock at 100, confirm, withdraw. *)
Lemma X8_locked_iff_ids_witness :
  lock_consistent
    (foldl (fun s o =>
              milestone.run (JSON0 := canonical_json.finality_json)
                (JSON1 := canonical_json.lock_json) sample.lastCheckpoint o s)
       sample.fresh
       [milestone.OpLockMutex 100; milestone.OpUnlockMutex true "m1" 7;
        milestone.OpRemoveMilestoneID "m1"]).
Proof.
  apply (X8_locked_iff_ids sample.lastCheckpoint
           (JSON0 := canonical_json.finality_json) (JSON1 := canonical_json.lock_json)
           sample.fresh
           [milestone.OpLockMutex 100; milestone.OpUnlockMutex true "m1" 7;
            milestone.OpRemoveMilestoneID "m1"]).
  unfold lock_consistent. reflexivity.
Defined.

(** On the fresh guard a confirming vote is what locks. *)
Lemma X9_only_confirmation_locks_witness :
  milestone.Locked sample.fresh = true
  \/ exists id h, milestone.OpUnlockMutex true "m1" 7 = milestone.OpUnlockMutex true id h.
Proof.
  apply (X9_only_confirmation_locks sample.lastCheckpoint
           (JSON0 := canonical_json.finality_json) (JSON1 := canonical_json.lock_json)
           (milestone.OpUnlockMutex true "m1" 7) sample.fresh).
  reflexivity.
Defined.

Example LockMutex_alone_does_not_lock :
  milestone.Locked (sample.LockMutex 100 sample.fresh).2 = false.
Proof. reflexivity. Qed.

(** ** A confirmed round and the validity check *)

Section Round_properties.
Variable finality_IsValidChain :
  finality.t -> types.Header -> list types.Header -> bool.
Context `{!JSON rawdb.LockField}.

(** X14: after an accepted [LockMutex endBlockNum] and a confirming
    [UnlockMutex] with hash [h], the guard is [Locked] at
    [(endBlockNum, h)] with the proposal among its identifiers, and, the
    flag being on, [IsValidChain] returns [true] only for a chain that
    ends above [endBlockNum] and whose first header at height
    [endBlockNum], if it has one, carries the hash [h]; whatever the base
    check says, a chain that ends at or below [endBlockNum] is never
    accepted. *)
Theorem X14_confirmed_round_guards_boundary (endBlockNum : uint64) (id : string)
  (h : common.Hash) (m : milestone.t) (currentHeader : types.Header)
  (chain : list types.Header) :
  (milestone.LockMutex endBlockNum m).1 = true ->
  let m' := milestone.UnlockMutex true id h (milestone.LockMutex endBlockNum m).2 in
  milestone.Locked m' = true
  /\ milestone.LockedSprintNumber m' = endBlockNum
  /\ milestone.LockedSprintHash m' = h
  /\ id ∈ milestone.LockedMilestoneIDs m'
  /\ (milestone.IsValidChain true finality_IsValidChain m' currentHeader chain = Some true ->
      exists lastHeader,
        last chain = Some lastHeader
        /\ (endBlockNum < types.height lastHeader)%N
        /\ forall pre b post,
             chain = pre ++ b :: post ->
             (forall x, x ∈ pre -> types.height x ≠ endBlockNum) ->
             types.height b = endBlockNum ->
             types.Hash b = h)
  /\ (forall lastHeader,
         last chain = Some lastHeader ->
         (types.height lastHeader <= endBlockNum)%N ->
         milestone.IsValidChain true finality_IsValidChain m' currentHeader chain
         = Some false).
Proof.
  intros Haccepted m'.
  assert (Hnum : milestone.LockedSprintNumber (milestone.LockMutex endBlockNum m).2
                 = endBlockNum).
  { revert Haccepted. unfold milestone.LockMutex.
    destruct (_ && _); [discriminate|].
    destruct (_ && _); [|reflexivity].
    destruct (_ <? _)%N; [discriminate | reflexivity]. }
  assert (Hfields : milestone.Locked m' = true
                    /\ milestone.LockedSprintNumber m' = endBlockNum
                    /\ milestone.LockedSprintHash m' = h
                    /\ id ∈ milestone.LockedMilestoneIDs m').
  { subst m'. unfold milestone.UnlockMutex. rewrite writeLockField_eq. simpl.
    rewrite orb_true_r. repeat split; [exact Hnum|].
    apply elem_of_union_l, elem_of_singleton. reflexivity. }
  destruct Hfields as (Hlocked & Hn & Hh & Hin).
  repeat (split; [assumption|]).
  unfold milestone.IsValidChain. simpl. rewrite Hlocked, Hn, Hh.
  split.
  - destruct (finality_IsValidChain _ _ _); simpl; [|discriminate].
    destruct (last chain) as [lastHeader|] eqn:Hlast.
    + rewrite (IsReorgAllowed_unfold _ _ endBlockNum h Hlast).
      destruct (N.leb_spec (types.height lastHeader) endBlockNum) as [Hle|Hgt];
        simpl; [discriminate|].
      destruct (milestone.IsReorgAllowed_scan chain endBlockNum h) eqn:Hscan;
        simpl; [|discriminate].
      intros _. exists lastHeader. split; [reflexivity|]. split; [exact Hgt|].
      intros pre b post Hchain Hpre Hb.
      rewrite Hchain, (scan_first_match pre b post endBlockNum h Hpre Hb) in Hscan.
      apply bool_decide_eq_true in Hscan. exact Hscan.
    + assert (Hnil : chain = []).
      { destruct chain as [|x chain'] using rev_ind; [reflexivity|].
        rewrite last_snoc in Hlast. discriminate. }
      rewrite (proj2 (IsReorgAllowed_panics chain endBlockNum h) Hnil). discriminate.
  - intros lastHeader Hlast Hle.
    destruct (finality_IsValidChain _ _ _); simpl; [|reflexivity].
    rewrite (IsReorgAllowed_unfold _ _ endBlockNum h Hlast).
    rewrite (proj2 (N.leb_le _ _) Hle). reflexivity.
Qed.
End Round_properties.

(** A round on the fresh guard: the candidate 100 is accepted and
    confirmed with hash 7; a chain that ends at 90 is then turned down
    although the base check passes. *)
Lemma X14_confirmed_round_guards_boundary_witness :
  milestone.IsValidChain true (fun _ _ _ => true)
    (sample.UnlockMutex true "m1" 7 (sample.LockMutex 100 sample.fresh).2)
    (types.mkHeader 90 8) [types.mkHeader 89 1; types.mkHeader 90 8]
  = Some false.
Proof.
  pose proof (X14_confirmed_round_guards_boundary (fun _ _ _ => true)
                (JSON0 := canonical_json.lock_json)
                100 "m1" 7 sample.fresh (types.mkHeader 90 8)
                [types.mkHeader 89 1; types.mkHeader 90 8] eq_refl) as Hround.
  destruct Hround as (_ & _ & _ & _ & _ & Hbelow).
  apply (Hbelow (types.mkHeader 90 8)).
  - reflexivity.
  - discriminate.
Defined.

Example confirmed_round_accepts_chain_through :
  milestone.IsValidChain true (fun _ _ _ => true)
    (sample.UnlockMutex true "m1" 7 (sample.LockMutex 100 sample.fresh).2)
    (types.mkHeader 150 3) sample.chain_through
  = Some true.
Proof. reflexivity. Qed.
